(** * Will I Hate This? -- diagnostic report generator

    A shallow embedding of [api/wht-pdf-generator.py]: the footer drawer
    [create_footer_drawer], the report composer and renderer
    [generate_verdict_pdf], and the request handler [handler.do_POST].

    Conventions.
    - A Python [str] is a list of Unicode code points, so that slicing
      ([assessment_id[:8]]) and [len] count characters, not bytes.
    - Values decoded from the JSON request are dynamically typed ([pyval]);
      operations that Python rejects at run time return an exception.
    - ReportLab flowables ([Paragraph], [Spacer], [Table]) are data; ReportLab's
      pagination and PDF serialisation are parameters of the development.
    - Lengths are exact rationals (points); ReportLab computes them in floats. *)

From Stdlib Require Import ZArith NArith QArith List String Ascii Bool Lia.
From Stdlib Require Import DecimalString Strings.Byte.
From Stdlib Require DecimalPos DecimalZ.
Import ListNotations.

Set Implicit Arguments.
Set Warnings "-register-all".

(* ------------------------------------------------------------------ *)
(** ** Python strings *)

Definition codepoint := N.
Definition str := list codepoint.

(** An ASCII literal of the source, as code points. *)
Fixpoint lit (s : string) : str :=
  match s with
  | EmptyString => []
  | String a rest => N_of_ascii a :: lit rest
  end.
Arguments lit s%_string.

(** The non-ASCII glyphs that occur in the source's literals. *)
Definition em_dash : codepoint := 0x2014%N.   (* — *)
Definition en_dash : codepoint := 0x2013%N.   (* – *)
Definition bullet : codepoint := 0x2022%N.    (* • *)
Definition ballot_x : codepoint := 0x2717%N.  (* ✗ *)
Definition check_mark : codepoint := 0x2713%N. (* ✓ *)
Definition nl : codepoint := 10%N.

Fixpoint str_eqb (a b : str) : bool :=
  match a, b with
  | [], [] => true
  | x :: a', y :: b' => N.eqb x y && str_eqb a' b'
  | _, _ => false
  end.

(** [needle in haystack] *)
Definition substring (needle haystack : str) : Prop :=
  exists pre post, haystack = pre ++ needle ++ post.

(** [str(n)] for a Python int. *)
Definition str_of_int (n : Z) : str := lit (NilZero.string_of_int (Z.to_int n)).

(* ------------------------------------------------------------------ *)
(** ** Dynamically typed values (what [json.loads] produces; JSON numbers
       with a fraction or exponent are not represented) *)

Inductive pyval :=
| PNone
| PBool (b : bool)
| PInt (n : Z)
| PStr (s : str)
| PList (items : list pyval)
| PDict (entries : list (str * pyval)).

(** A dict literal or decoded JSON object, in insertion order. *)
Fixpoint dict_get {V : Type} (d : list (str * V)) (key : str) : option V :=
  match d with
  | [] => None
  | (k, v) :: rest => if str_eqb k key then Some v else dict_get rest key
  end.

(** [d.get(key, default)] on a dict. *)
Definition dict_get_default {V : Type} (d : list (str * V)) (key : str) (default : V) : V :=
  match dict_get d key with
  | Some v => v
  | None => default
  end.

(** Truth value, as tested by [if x:] and [not x]. *)
Definition truthy (v : pyval) : bool :=
  match v with
  | PNone => false
  | PBool b => b
  | PInt n => negb (n =? 0)%Z
  | PStr s => match s with [] => false | _ => true end
  | PList l => match l with [] => false | _ => true end
  | PDict d => match d with [] => false | _ => true end
  end.

(** Exceptions raised by the interpreter or by ReportLab.  The handler only
    uses [str(e)], which is a parameter below. *)
Inductive exn :=
| AttributeError (obj : pyval) (attr : string)   (* obj has no such method *)
| NotIterable (obj : pyval)                      (* TypeError: [for x in obj] *)
| NotSubscriptable (obj : pyval)                 (* [obj[:8]] is rejected *)
| ReportLabError (msg : str).                    (* raised inside ReportLab *)

Definition result (A : Type) : Type := (exn + A)%type.

Definition rbind {A B : Type} (r : result A) (k : A -> result B) : result B :=
  match r with
  | inl e => inl e
  | inr a => k a
  end.

(** [obj.get(key, default)]: only dicts have the method. *)
Definition py_get (obj : pyval) (key : str) (default : pyval) : result pyval :=
  match obj with
  | PDict d => inr (dict_get_default d key default)
  | _ => inl (AttributeError obj "get")
  end.

(** [iter(obj)], as run by a [for] loop. *)
Definition py_iter (obj : pyval) : result (list pyval) :=
  match obj with
  | PList l => inr l
  | PStr s => inr (map (fun c => PStr [c]) s)
  | PDict d => inr (map (fun kv => PStr (fst kv)) d)
  | _ => inl (NotIterable obj)
  end.

(** [obj[:n]] *)
Definition py_slice_to (obj : pyval) (n : nat) : result pyval :=
  match obj with
  | PStr s => inr (PStr (firstn n s))
  | PList l => inr (PList (firstn n l))
  | _ => inl (NotSubscriptable obj)
  end.

(* ------------------------------------------------------------------ *)
(** ** reportlab.lib.colors, units, pagesizes *)

Record Color := mkColor { red : Z; green : Z; blue : Z }.

(** [colors.HexColor('#rrggbb')], the argument given as the number 0xrrggbb. *)
Definition HexColor (val : Z) : Color :=
  {| red := Z.land (Z.shiftr val 16) 0xFF;
     green := Z.land (Z.shiftr val 8) 0xFF;
     blue := Z.land val 0xFF |}.

Definition black : Color := mkColor 0 0 0.

Definition inch : Q := 72.
Definition letter : Q * Q := (8.5 * inch, 11 * inch)%Q.

(* ------------------------------------------------------------------ *)
(** ** reportlab.platypus flowables *)

(** The entries of [getSampleStyleSheet()] the program derives from. *)
Inductive SampleStyle := Normal | Heading1 | Heading2.

(** [ParagraphStyle(name, parent=..., **overrides)]; [None] is inherited. *)
Record ParagraphStyle := mkParagraphStyle {
  style_name : string;
  parent : SampleStyle;
  fontSize : option Q;
  textColor : option Color;
  spaceAfter : option Q;
  spaceBefore : option Q;
  alignment : option Z;
  fontName : option string;
  leading : option Q
}.

Definition cell := (Z * Z)%type.

Inductive TableCmd :=
| BACKGROUND (c1 c2 : cell) (color : Color)
| BOX (c1 c2 : cell) (width : Q) (color : Color)
| FONTNAME (c1 c2 : cell) (font : string)
| FONTSIZE (c1 c2 : cell) (size : Q)
| TEXTCOLOR (c1 c2 : cell) (color : Color)
| ALIGN (c1 c2 : cell) (mode : string)
| TOPPADDING (c1 c2 : cell) (pad : Q)
| BOTTOMPADDING (c1 c2 : cell) (pad : Q).

Inductive Flowable :=
| Paragraph (text : pyval) (style : ParagraphStyle)
| Spacer (width height : Q)
| Table (data : list (list pyval)) (colWidths : list Q) (style : list TableCmd).

(** The colour of the box drawn around a table, if its style has one. *)
Fixpoint box_color_of (cmds : list TableCmd) : option Color :=
  match cmds with
  | [] => None
  | BOX _ _ _ c :: _ => Some c
  | _ :: rest => box_color_of rest
  end.

Definition box_color (f : Flowable) : option Color :=
  match f with
  | Table _ _ cmds => box_color_of cmds
  | _ => None
  end.

Definition table_rows (f : Flowable) : list (list pyval) :=
  match f with
  | Table data _ _ => data
  | _ => []
  end.

Definition table_style (f : Flowable) : list TableCmd :=
  match f with
  | Table _ _ cmds => cmds
  | _ => []
  end.

(* ------------------------------------------------------------------ *)
(** ** Canvas and document, as seen by a page callback *)

Inductive CanvasOp :=
| saveState
| setStrokeColor (c : Color)
| setLineWidth (w : Q)
| line (x1 y1 x2 y2 : Q)
| setFont (name : string) (size : Q)
| setFillColor (c : Color)
| drawCentredString (x y : Q) (text : str)
| restoreState.

Definition Canvas := list CanvasOp.

Record Doc := mkDoc { page : Z }.

Definition PageCallback := Canvas -> Doc -> Canvas.

(** [SimpleDocTemplate(buffer, pagesize=..., rightMargin=..., ...)] *)
Record DocTemplate := mkDocTemplate {
  pagesize : Q * Q;
  rightMargin : Q;
  leftMargin : Q;
  topMargin : Q;
  bottomMargin : Q
}.

(** A finished page: what the page callback drew, and the flowables placed. *)
Record Page := mkPage { decorations : Canvas; content : list Flowable }.

(* ------------------------------------------------------------------ *)
(** ** base64.b64encode *)

Definition b64_alphabet : str :=
  lit "ABCDEFGHIJKLMNOPQRSTUVWXYZabcdefghijklmnopqrstuvwxyz0123456789+/".

Definition b64_char (i : N) : codepoint := nth (N.to_nat (N.land i 63)) b64_alphabet 0%N.

Definition b64_pad : codepoint := 61%N.   (* = *)

Fixpoint b64encode (bs : list byte) : str :=
  match bs with
  | [] => []
  | [a] =>
      let n := N.shiftl (Byte.to_N a) 16 in
      [b64_char (N.shiftr n 18); b64_char (N.shiftr n 12); b64_pad; b64_pad]
  | [a; b] =>
      let n := N.lor (N.shiftl (Byte.to_N a) 16) (N.shiftl (Byte.to_N b) 8) in
      [b64_char (N.shiftr n 18); b64_char (N.shiftr n 12); b64_char (N.shiftr n 6); b64_pad]
  | a :: b :: c :: rest =>
      let n := N.lor (N.lor (N.shiftl (Byte.to_N a) 16) (N.shiftl (Byte.to_N b) 8)) (Byte.to_N c) in
      b64_char (N.shiftr n 18) :: b64_char (N.shiftr n 12) :: b64_char (N.shiftr n 6)
        :: b64_char n :: b64encode rest
  end.

(* ------------------------------------------------------------------ *)
(** ** The element list under construction: state and exceptions *)

Definition M (A : Type) : Type := list Flowable -> result (A * list Flowable).

Definition ret {A : Type} (a : A) : M A := fun els => inr (a, els).

Definition bind {A B : Type} (m : M A) (k : A -> M B) : M B :=
  fun els =>
    match m els with
    | inl e => inl e
    | inr (a, els') => k a els'
    end.

Definition lift {A : Type} (r : result A) : M A :=
  fun els =>
    match r with
    | inl e => inl e
    | inr a => inr (a, els)
    end.

(** [elements.append(f)] *)
Definition append (f : Flowable) : M unit := fun els => inr (tt, els ++ [f]).

Declare Scope m_scope.
Delimit Scope m_scope with M.
Notation "x <- m ;; k" := (bind m (fun x => k))
  (at level 61, m at next level, right associativity) : m_scope.
Notation "m ;; k" := (bind m (fun _ => k))
  (at level 61, right associativity) : m_scope.

(** [for x in xs: body(x)] *)
Fixpoint for_each {A : Type} (xs : list A) (body : A -> M unit) : M unit :=
  match xs with
  | [] => ret tt
  | x :: rest => (body x ;; for_each rest body)%M
  end.

(** The elements a computation leaves when started from the empty list. *)
Definition run (m : M unit) : result (list Flowable) :=
  match m [] with
  | inl e => inl e
  | inr (_, els) => inr els
  end.

(* ------------------------------------------------------------------ *)
(** ** The handler's output: what it sends and prints *)

Inductive event :=
| send_response (code : Z)
| send_header (keyword value : string)
| end_headers
| wfile_write (body : pyval)       (* the value passed to [json.dumps] *)
| stdout_print (msg : str).

Definition H (A : Type) : Type := (list event * result A)%type.

Definition hret {A : Type} (a : A) : H A := ([], inr a).

Definition hbind {A B : Type} (m : H A) (k : A -> H B) : H B :=
  match m with
  | (w, inl e) => (w, inl e)
  | (w, inr a) => let (w', r) := k a in (w ++ w', r)
  end.

Definition hlift {A : Type} (r : result A) : H A := ([], r).

Definition emit (ev : event) : H unit := ([ev], inr tt).

Declare Scope h_scope.
Delimit Scope h_scope with H.
Notation "x <- m ;; k" := (hbind m (fun x => k))
  (at level 61, m at next level, right associativity) : h_scope.
Notation "m ;; k" := (hbind m (fun _ => k))
  (at level 61, right associativity) : h_scope.

(* ------------------------------------------------------------------ *)
(** ** Concrete instances of the parameters, used by the examples

    The program below is parametric in the Python runtime and in ReportLab.
    The examples run it with these stand-ins. *)

(** Upper-casing that knows two non-ASCII letters: dotless i and sharp s. *)
Definition sample_upper (c : codepoint) : str :=
  if (c =? 0x131)%N then lit "I"
  else if (c =? 0xDF)%N then lit "SS"
  else [c].

Definition sample_str (v : pyval) : str :=
  match v with
  | PNone => lit "None"
  | PBool true => lit "True"
  | PBool false => lit "False"
  | PInt n => str_of_int n
  | _ => lit "<object>"
  end.

Definition sample_exn_str (e : exn) : str :=
  match e with
  | ReportLabError msg => msg
  | _ => lit "<error>"
  end.

(** A paginator that puts at most five flowables on a page. *)
Fixpoint chunk (fuel : nat) (els : list Flowable) : list (list Flowable) :=
  match fuel, els with
  | S fuel', _ :: _ => firstn 5 els :: chunk fuel' (skipn 5 els)
  | _, _ => []
  end.

Definition sample_paginate (_ : unit) (_ : DocTemplate) (els : list Flowable)
    : str + list (list Flowable) :=
  match els with
  | [] => inr [[]]
  | _ => inr (chunk (List.length els) els)
  end.

(** A serialiser that writes one byte per page after the four bytes of %PDF. *)
Definition sample_serialize (_ : unit) (pages : list Page) : list byte :=
  [x25; x50; x44; x46] ++ map (fun _ => x0a) pages.

(* ------------------------------------------------------------------ *)
(** ** The program *)

Section Program.

Local Open Scope Q_scope.

(** *** What the development takes from the Python runtime *)

(** Unicode's full upper-case mapping on the code points above ASCII. *)
Variable unicode_upper : codepoint -> str.

(** [str(v)] for a value that is not itself a [str]. *)
Variable py_str : pyval -> str.

(** [str(e)] for a raised exception. *)
Variable exn_str : exn -> str.

(** *** What the development takes from ReportLab *)

(** Whatever a build reads besides its arguments (configuration, clock). *)
Variable rl_ambient : Type.

(** Splitting the flowables into pages; ReportLab's failures arise here. *)
Variable rl_paginate :
  rl_ambient -> DocTemplate -> list Flowable -> str + list (list Flowable).

(** Writing the finished pages as PDF bytes. *)
Variable rl_serialize : rl_ambient -> list Page -> list byte.

(** *** str methods and formatting *)

Definition upper_cp (c : codepoint) : str :=
  if ((97 <=? c) && (c <=? 122))%N then [(c - 32)%N]
  else if (c <? 128)%N then [c]
  else unicode_upper c.

(** [s.upper()] *)
Definition upper (s : str) : str := flat_map upper_cp s.

(** [obj.upper()]: only strings have the method. *)
Definition py_upper (obj : pyval) : result str :=
  match obj with
  | PStr s => inr (upper s)
  | _ => inl (AttributeError obj "upper")
  end.

(** A replacement field [{v}] of an f-string. *)
Definition format_value (v : pyval) : str :=
  match v with
  | PStr s => s
  | _ => py_str v
  end.

(** *** create_footer_drawer *)

Definition footer_text (assessment_id : pyval) (doc : Doc) : str :=
  lit "Will I Hate This? " ++ em_dash :: lit " Founder" ++ en_dash
    :: lit "GTM Misery Risk Diagnostic | Assessment ID: " ++ format_value assessment_id
    ++ lit " | Page " ++ str_of_int (page doc).

Definition create_footer_drawer (assessment_id : pyval) : PageCallback :=
  fun canvas_obj doc =>
    canvas_obj ++
    [ saveState;
      setStrokeColor (HexColor 0x2563eb);
      setLineWidth 0.5;
      line 72 50 (fst letter - 72) 50;
      setFont "Helvetica" 8;
      setFillColor (HexColor 0x666666);
      drawCentredString (fst letter / 2) 35 (footer_text assessment_id doc);
      restoreState ].

(** *** SimpleDocTemplate.build *)

(** Modelled from the spec: ReportLab's page loop is not part of the
    repository.  The pagination engine numbers pages from 1, keeps the number
    of the page being drawn in [doc.page], and calls [onFirstPage] on the first
    page and [onLaterPages] on every other page, each on that page's canvas. *)
Fixpoint later_pages (onLaterPages : PageCallback) (doc : Doc)
    (pages : list (list Flowable)) : list Page :=
  match pages with
  | [] => []
  | flowables :: rest =>
      let doc' := mkDoc (page doc + 1) in
      mkPage (onLaterPages [] doc') flowables :: later_pages onLaterPages doc' rest
  end.

(** Modelled from the spec: the first page of ReportLab's page loop, which is
    not part of the repository; it is page 1 and is decorated by [onFirstPage]. *)
Definition draw_pages (onFirstPage onLaterPages : PageCallback)
    (pages : list (list Flowable)) : list Page :=
  match pages with
  | [] => []
  | flowables :: rest =>
      let doc := mkDoc 1 in
      mkPage (onFirstPage [] doc) flowables :: later_pages onLaterPages doc rest
  end.

(** Modelled from the spec: [doc.build(elements, onFirstPage=..., onLaterPages=...)]
    of ReportLab, which is not part of the repository; it paginates, decorates
    every page through the callbacks and serialises, or raises. *)
Definition SimpleDocTemplate_build (amb : rl_ambient) (doc : DocTemplate)
    (elements : list Flowable) (onFirstPage onLaterPages : PageCallback)
    : result (list byte) :=
  match rl_paginate amb doc elements with
  | inl msg => inl (ReportLabError msg)
  | inr pages => inr (rl_serialize amb (draw_pages onFirstPage onLaterPages pages))
  end.

(** *** generate_verdict_pdf: styles *)

Definition title_style : ParagraphStyle :=
  {| style_name := "CustomTitle"; parent := Heading1;
     fontSize := Some 18; textColor := Some (HexColor 0x1f2937);
     spaceAfter := Some 6; spaceBefore := None;
     alignment := Some 1%Z; fontName := None; leading := None |}.

Definition subtitle_style : ParagraphStyle :=
  {| style_name := "SubtitleStyle"; parent := Normal;
     fontSize := Some 10; textColor := Some (HexColor 0x6b7280);
     spaceAfter := Some 24; spaceBefore := None;
     alignment := Some 1%Z; fontName := None; leading := None |}.

Definition heading_style : ParagraphStyle :=
  {| style_name := "CustomHeading"; parent := Heading2;
     fontSize := Some 13; textColor := Some (HexColor 0x2563eb);
     spaceAfter := Some 10; spaceBefore := Some 16;
     alignment := None; fontName := Some "Helvetica-Bold"%string; leading := None |}.

Definition body_style : ParagraphStyle :=
  {| style_name := "BodyStyle"; parent := Normal;
     fontSize := Some 10; textColor := Some (HexColor 0x374151);
     spaceAfter := Some 8; spaceBefore := None;
     alignment := None; fontName := None; leading := Some 14 |}.

Definition final_warning : ParagraphStyle :=
  {| style_name := "FinalWarning"; parent := Normal;
     fontSize := Some 10; textColor := Some (HexColor 0x374151);
     spaceAfter := Some 12; spaceBefore := None;
     alignment := Some 1%Z; fontName := Some "Helvetica-Bold"%string; leading := None |}.

(** *** generate_verdict_pdf: fixed texts *)

Definition disclaimer_text : str :=
  nl :: lit "    <i>This assessment does not evaluate idea quality, market size, or likelihood of success. "
  ++ nl :: lit "    It evaluates the risk that executing the required GTM will conflict with the founder's "
  ++ nl :: lit "    working preferences.</i>"
  ++ nl :: lit "    ".

Definition regret_text : str :=
  nl :: lit "    This is the point at which founders with similar profiles historically report "
  ++ nl :: lit "    avoidance, burnout, or abandonment."
  ++ nl :: lit "    ".

Definition does_not_say : str :=
  nl :: lit "    This verdict does not say:"
  ++ nl :: lit "    " ++ bullet :: lit " That the idea is bad"
  ++ nl :: lit "    " ++ bullet :: lit " That the market is too small"
  ++ nl :: lit "    " ++ bullet :: lit " That someone else could not succeed with this idea"
  ++ nl :: lit "    " ++ bullet :: lit " That you should abandon the idea immediately"
  ++ nl :: lit "    "
  ++ nl :: lit "    It only states that this GTM path is statistically misaligned with how you work."
  ++ nl :: lit "    ".

Definition immutable_text : str :=
  nl :: lit "    <i>This report does not update. Re-running the assessment with different answers "
  ++ nl :: lit "    constitutes a different idea.</i>"
  ++ nl :: lit "    ".

Definition gtm_description_default : str := lit "Classification description not available.".
Definition explanation_default : str := lit "Classification basis not available.".
Definition no_mismatches_text : str := lit "No critical mismatches detected.".

(** *** generate_verdict_pdf: the element list, section by section *)

Local Open Scope m_scope.

(* --- HEADER --- *)
Definition header_section : M unit :=
  append (Paragraph (PStr (lit "FOUNDER" ++ en_dash :: lit "GTM MISERY RISK DIAGNOSTIC")) title_style) ;;
  append (Paragraph (PStr (lit "Will I Hate This?")) subtitle_style).

(* --- METADATA --- *)
Definition metadata_table (assessment_id timestamp : pyval) : Flowable :=
  let metadata_data :=
    [ [PStr (lit "Assessment ID:"); assessment_id];
      [PStr (lit "Generated:"); timestamp];
      [PStr (lit "Assessment Type:");
       PStr (lit "Founder" ++ en_dash :: lit "GTM Misery Risk Classification")];
      [PStr (lit "Classification Integrity:"); PStr (lit "Deterministic")] ] in
  Table metadata_data [2 * inch; 4 * inch]
    [ FONTNAME (0, 0)%Z (0, -1)%Z "Helvetica-Bold";
      FONTSIZE (0, 0)%Z (-1, -1)%Z 9;
      BOTTOMPADDING (0, 0)%Z (-1, -1)%Z 4;
      TEXTCOLOR (0, 0)%Z (-1, -1)%Z (HexColor 0x4b5563) ].

Definition metadata_section (assessment_id timestamp : pyval) : M unit :=
  append (metadata_table assessment_id timestamp) ;;
  append (Spacer 1 (0.15 * inch)).

(* --- DISCLAIMER --- *)
Definition disclaimer_section : M unit :=
  append (Paragraph (PStr disclaimer_text) body_style) ;;
  append (Spacer 1 (0.25 * inch)).

(* --- VERDICT BOX --- *)
Definition risk_colors : list (str * Color) :=
  [ (lit "LOW", HexColor 0x10b981);
    (lit "MODERATE", HexColor 0xf59e0b);
    (lit "HIGH", HexColor 0xef4444);
    (lit "SEVERE", HexColor 0x991b1b) ].

Definition verdict_table (risk_level : pyval) : result Flowable :=
  rbind (py_upper risk_level) (fun key =>
  let risk_color := dict_get_default risk_colors key black in
  rbind (py_upper risk_level) (fun shown =>
  let verdict_data :=
    [ [PStr (lit "Misery Risk: " ++ shown)];
      [PStr (lit "Expected mismatch between GTM requirements and founder energy profile.")] ] in
  inr (Table verdict_data [6 * inch]
    [ BACKGROUND (0, 0)%Z (-1, -1)%Z (HexColor 0xf9fafb);
      BOX (0, 0)%Z (-1, -1)%Z 2 risk_color;
      FONTNAME (0, 0)%Z (0, 0)%Z "Helvetica-Bold";
      FONTSIZE (0, 0)%Z (0, 0)%Z 14;
      FONTSIZE (0, 1)%Z (0, 1)%Z 10;
      TEXTCOLOR (0, 0)%Z (0, 0)%Z risk_color;
      ALIGN (0, 0)%Z (-1, -1)%Z "CENTER";
      TOPPADDING (0, 0)%Z (-1, -1)%Z 12;
      BOTTOMPADDING (0, 0)%Z (-1, -1)%Z 12 ]))).

Definition verdict_box_section (risk_level : pyval) : M unit :=
  append (Paragraph (PStr (lit "VERDICT")) heading_style) ;;
  verdict_table <- lift (verdict_table risk_level) ;;
  append verdict_table ;;
  append (Spacer 1 (0.2 * inch)).

(* --- TIME-TO-REGRET --- *)
Definition time_to_regret_section (time_to_regret : pyval) : M unit :=
  append (Paragraph (PStr (lit "Time-to-Regret: " ++ format_value time_to_regret)) heading_style) ;;
  append (Paragraph (PStr regret_text) body_style) ;;
  append (Spacer 1 (0.2 * inch)).

(** [for x in xs: elements.append(Paragraph(f"• {x}", body_style))] *)
Definition bulleted (xs : list pyval) : M unit :=
  for_each xs (fun x =>
    append (Paragraph (PStr (bullet :: lit " " ++ format_value x)) body_style)).

(* --- PRIMARY GTM SHAPE --- *)
Definition primary_gtm_shape_section (verdict gtm_shape : pyval) : M unit :=
  append (Paragraph (PStr (lit "PRIMARY GTM SHAPE")) heading_style) ;;
  append (Paragraph (PStr (lit "<b>" ++ format_value gtm_shape ++ lit "</b>")) body_style) ;;
  gtm_description <- lift (py_get verdict (lit "gtm_description") (PStr gtm_description_default)) ;;
  append (Paragraph gtm_description body_style) ;;
  pressure_flags <- lift (py_get verdict (lit "pressure_flags") (PList [])) ;;
  (if truthy pressure_flags then
     append (Spacer 1 (0.1 * inch)) ;;
     append (Paragraph (PStr (lit "<b>Active Pressure Flags:</b>")) body_style) ;;
     flags <- lift (py_iter pressure_flags) ;;
     bulleted flags
   else ret tt) ;;
  append (Spacer 1 (0.2 * inch)).

(* --- FOUNDER ENERGY PROFILE --- *)
Definition founder_energy_profile_section (founder_profile : pyval) : M unit :=
  append (Paragraph (PStr (lit "FOUNDER ENERGY PROFILE")) heading_style) ;;
  drivers <- lift (py_get founder_profile (lit "core_drivers") (PList [])) ;;
  drains <- lift (py_get founder_profile (lit "core_drains") (PList [])) ;;
  (if truthy drivers then
     append (Paragraph (PStr (lit "<b>Core Drivers:</b>")) body_style) ;;
     xs <- lift (py_iter drivers) ;;
     bulleted xs
   else ret tt) ;;
  (if truthy drains then
     append (Spacer 1 (0.1 * inch)) ;;
     append (Paragraph (PStr (lit "<b>Core Drains:</b>")) body_style) ;;
     xs <- lift (py_iter drains) ;;
     bulleted xs
   else ret tt) ;;
  append (Spacer 1 (0.2 * inch)).

(* --- MISMATCH FLAGS --- *)
Definition mismatch_flags_section (mismatch_flags : pyval) : M unit :=
  append (Paragraph (PStr (lit "MISMATCH FLAGS")) heading_style) ;;
  (if truthy mismatch_flags then
     flags <- lift (py_iter mismatch_flags) ;;
     for_each flags (fun flag =>
       let flag_text := ballot_x :: lit " " ++ format_value flag in
       let flag_para := Paragraph (PStr flag_text) body_style in
       append flag_para ;;
       append (Spacer 1 (0.05 * inch)))
   else append (Paragraph (PStr no_mismatches_text) body_style)) ;;
  append (Spacer 1 (0.2 * inch)).

(* --- WHY THIS VERDICT --- *)
Definition classification_basis_section (verdict : pyval) : M unit :=
  append (Paragraph (PStr (lit "CLASSIFICATION BASIS")) heading_style) ;;
  explanation <- lift (py_get verdict (lit "explanation") (PStr explanation_default)) ;;
  append (Paragraph explanation body_style) ;;
  append (Spacer 1 (0.2 * inch)).

(* --- WHAT THIS VERDICT DOES NOT SAY --- *)
Definition does_not_say_section : M unit :=
  append (Paragraph (PStr (lit "WHAT THIS VERDICT DOES NOT SAY")) heading_style) ;;
  append (Paragraph (PStr does_not_say) body_style) ;;
  append (Spacer 1 (0.3 * inch)).

(* --- FINAL LINE --- *)
Definition final_line_section : M unit :=
  append (Paragraph (PStr (lit "Most founders ignore this signal.")) final_warning) ;;
  append (Paragraph (PStr (lit "The cost is usually paid in time, not money.")) final_warning) ;;
  append (Spacer 1 (0.2 * inch)).

(* --- IMMUTABILITY NOTICE --- *)
Definition immutability_notice_section : M unit :=
  append (Paragraph (PStr immutable_text) body_style).

(** The statements of [generate_verdict_pdf] that fill [elements]. *)
Definition compose (assessment_id timestamp verdict gtm_shape founder_profile
    mismatch_flags time_to_regret risk_level : pyval) : M unit :=
  header_section ;;
  metadata_section assessment_id timestamp ;;
  disclaimer_section ;;
  verdict_box_section risk_level ;;
  time_to_regret_section time_to_regret ;;
  primary_gtm_shape_section verdict gtm_shape ;;
  founder_energy_profile_section founder_profile ;;
  mismatch_flags_section mismatch_flags ;;
  classification_basis_section verdict ;;
  does_not_say_section ;;
  final_line_section ;;
  immutability_notice_section.

Local Close Scope m_scope.

(** *** generate_verdict_pdf *)

(** [SimpleDocTemplate(buffer, pagesize=letter, rightMargin=72, leftMargin=72,
    topMargin=72, bottomMargin=60)] *)
Definition report_doc : DocTemplate :=
  {| pagesize := letter; rightMargin := 72; leftMargin := 72;
     topMargin := 72; bottomMargin := 60 |}.

Definition generate_verdict_pdf (amb : rl_ambient) (assessment_id timestamp verdict
    gtm_shape founder_profile mismatch_flags time_to_regret risk_level : pyval)
    : result str :=
  let doc := report_doc in
  let footer_func := create_footer_drawer assessment_id in
  rbind (run (compose assessment_id timestamp verdict gtm_shape founder_profile
                mismatch_flags time_to_regret risk_level)) (fun elements =>
  rbind (SimpleDocTemplate_build amb doc elements footer_func footer_func) (fun pdf_bytes =>
  inr (b64encode pdf_bytes))).

(** *** handler.do_POST *)

Local Open Scope h_scope.

Definition json_headers : H unit :=
  emit (send_header "Content-Type" "application/json") ;;
  emit (send_header "Access-Control-Allow-Origin" "*") ;;
  emit end_headers.

Definition filename_prefix : str := lit "WHT-Diagnostic-Report-".

(** The body of the [try] block, from the decoded request [data] on;
    [now] is the UTC time already formatted by [strftime]. *)
Definition do_POST_try (amb : rl_ambient) (now : str) (data : pyval) : H unit :=
  assessment_id <- hlift (py_get data (lit "assessment_id") PNone) ;;
  if negb (truthy assessment_id) then
    emit (send_response 400) ;;
    json_headers ;;
    emit (wfile_write (PDict [(lit "error", PStr (lit "assessment_id is required"))]))
  else
    let timestamp := PStr now in
    verdict <- hlift (py_get data (lit "verdict") (PDict [])) ;;
    gtm_shape <- hlift (py_get data (lit "gtm_shape") (PStr (lit "Not Classified"))) ;;
    founder_profile <- hlift (py_get data (lit "founder_profile") (PDict [])) ;;
    mismatch_flags <- hlift (py_get data (lit "mismatch_flags") (PList [])) ;;
    time_to_regret <- hlift (py_get data (lit "time_to_regret") (PStr (lit "Unknown"))) ;;
    risk_level <- hlift (py_get data (lit "risk_level") (PStr (lit "UNKNOWN"))) ;;
    if negb (truthy verdict) || negb (truthy gtm_shape) then
      emit (send_response 400) ;;
      json_headers ;;
      let error_response :=
        PDict [(lit "error", PStr (lit "Verdict data missing. Cannot generate report."))] in
      emit (wfile_write error_response) ;;
      emit (stdout_print (ballot_x :: lit " PDF generation failed for assessment "
                            ++ format_value assessment_id ++ lit ": Missing verdict data"))
    else
      pdf_content_base64 <- hlift (generate_verdict_pdf amb assessment_id timestamp verdict
                                     gtm_shape founder_profile mismatch_flags
                                     time_to_regret risk_level) ;;
      emit (send_response 200) ;;
      json_headers ;;
      head <- hlift (py_slice_to assessment_id 8) ;;
      let response_data :=
        PDict [ (lit "success", PBool true);
                (lit "pdfAttachmentData",
                 PDict [ (lit "filename",
                          PStr (filename_prefix ++ format_value head ++ lit ".pdf"));
                         (lit "content", PStr pdf_content_base64) ]) ] in
      emit (wfile_write response_data) ;;
      emit (stdout_print (check_mark :: lit " PDF generated successfully for assessment: "
                            ++ format_value assessment_id)).

(** The [except Exception as e] clause. *)
Definition do_POST_except (e : exn) : H unit :=
  emit (send_response 500) ;;
  json_headers ;;
  let error_response :=
    PDict [(lit "error", PStr (lit "PDF Generation Failed: " ++ exn_str e))] in
  emit (wfile_write error_response) ;;
  emit (stdout_print (ballot_x :: lit " PDF generation error: " ++ exn_str e)).

(** Everything the handler sends and prints for one request. *)
Definition do_POST (amb : rl_ambient) (now : str) (data : pyval) : list event :=
  match do_POST_try amb now data with
  | (sent, inr _) => sent
  | (sent, inl e) => sent ++ fst (do_POST_except e)
  end.

(** *** handler.do_OPTIONS *)

Definition do_OPTIONS : list event :=
  fst (emit (send_response 200) ;;
       emit (send_header "Access-Control-Allow-Origin" "*") ;;
       emit (send_header "Access-Control-Allow-Methods" "POST, OPTIONS") ;;
       emit (send_header "Access-Control-Allow-Headers" "Content-Type") ;;
       emit end_headers).

Local Close Scope h_scope.

(** The status line and the JSON value of a finished exchange. *)
Definition status_codes (evs : list event) : list Z :=
  flat_map (fun ev => match ev with send_response c => [c] | _ => [] end) evs.

Definition bodies (evs : list event) : list pyval :=
  flat_map (fun ev => match ev with wfile_write b => [b] | _ => [] end) evs.

(** *** Vocabulary for the statements below *)

(** [m] raises nothing and appends exactly [out], whatever came before. *)
Definition emits (m : M unit) (out : list Flowable) : Prop :=
  forall els, m els = inr (tt, els ++ out).

(** [m] never removes or rewrites what is already in the list. *)
Definition extends {A : Type} (m : M A) : Prop :=
  forall els a els', m els = inr (a, els') -> exists out, els' = els ++ out.


(** [m] raises, whatever the list holds. *)
Definition fails {A : Type} (m : M A) : Prop :=
  forall els, exists e, m els = inl e.

(* ------------------------------------------------------------------ *)
(** ** Properties *)

(** *** Strings and dict lookup *)

Lemma str_eqb_refl (a : str) : str_eqb a a = true.
Proof.
  induction a as [|x a IH]; simpl; [reflexivity|].
  now rewrite N.eqb_refl, IH.
Qed.

Lemma str_eqb_eq (a b : str) : str_eqb a b = true <-> a = b.
Proof.
  split; [|intros ->; apply str_eqb_refl].
  revert b; induction a as [|x a IH]; intros [|y b]; simpl; try discriminate; auto.
  intros H. apply andb_true_iff in H as [Hx Hr].
  apply N.eqb_eq in Hx. apply IH in Hr. congruence.
Qed.

Lemma str_eqb_neq (a b : str) : a <> b -> str_eqb a b = false.
Proof.
  intros Hne. destruct (str_eqb a b) eqn:E; [|reflexivity].
  apply str_eqb_eq in E. contradiction.
Qed.

(** *** The verdict box *)

Lemma verdict_table_str (s : str) :
  verdict_table (PStr s) =
  inr (Table
    [ [PStr (lit "Misery Risk: " ++ upper s)];
      [PStr (lit "Expected mismatch between GTM requirements and founder energy profile.")] ]
    [6 * inch]
    [ BACKGROUND (0, 0)%Z (-1, -1)%Z (HexColor 0xf9fafb);
      BOX (0, 0)%Z (-1, -1)%Z 2 (dict_get_default risk_colors (upper s) black);
      FONTNAME (0, 0)%Z (0, 0)%Z "Helvetica-Bold";
      FONTSIZE (0, 0)%Z (0, 0)%Z 14;
      FONTSIZE (0, 1)%Z (0, 1)%Z 10;
      TEXTCOLOR (0, 0)%Z (0, 0)%Z (dict_get_default risk_colors (upper s) black);
      ALIGN (0, 0)%Z (-1, -1)%Z "CENTER";
      TOPPADDING (0, 0)%Z (-1, -1)%Z 12;
      BOTTOMPADDING (0, 0)%Z (-1, -1)%Z 12 ]).
Proof. reflexivity. Qed.

Lemma risk_colors_other (key : str) :
  key <> lit "LOW" -> key <> lit "MODERATE" -> key <> lit "HIGH" -> key <> lit "SEVERE" ->
  dict_get_default risk_colors key black = black.
Proof.
  intros H1 H2 H3 H4.
  unfold dict_get_default, risk_colors, dict_get.
  rewrite !str_eqb_neq by congruence. reflexivity.
Qed.

(** *** Running the element list *)

Lemma bind_inr {A B : Type} (m : M A) (k : A -> M B) els r :
  bind m k els = inr r ->
  exists a els1, m els = inr (a, els1) /\ k a els1 = inr r.
Proof.
  unfold bind. destruct (m els) as [e|[a els1]]; [discriminate|].
  intros H. now exists a, els1.
Qed.

Lemma run_inr (m : M unit) els :
  run m = inr els <-> m [] = inr (tt, els).
Proof.
  unfold run. destruct (m []) as [e|[[] els1]]; split; intros H; try discriminate; congruence.
Qed.

Lemma emits_append f : emits (append f) [f].
Proof. intros els. reflexivity. Qed.

Lemma emits_ret : emits (ret tt) [].
Proof. intros els. unfold ret. now rewrite app_nil_r. Qed.

Lemma emits_bind (m : M unit) (k : unit -> M unit) X Y :
  emits m X -> emits (k tt) Y -> emits (bind m k) (X ++ Y).
Proof.
  intros Hm Hk els. unfold bind. rewrite Hm, Hk. now rewrite app_assoc.
Qed.


Lemma emits_lift {A : Type} (r : result A) (a : A) (k : A -> M unit) Y :
  r = inr a -> emits (k a) Y -> emits (bind (lift r) k) Y.
Proof.
  intros -> Hk els. unfold bind, lift. apply Hk.
Qed.

Lemma emits_for_each {A : Type} (xs : list A) (body : A -> M unit) (g : A -> list Flowable) :
  (forall x, emits (body x) (g x)) -> emits (for_each xs body) (flat_map g xs).
Proof.
  intros Hbody. induction xs as [|x xs IH]; simpl.
  - apply emits_ret.
  - apply emits_bind; [apply Hbody | exact IH].
Qed.

Lemma emits_extends (m : M unit) X : emits m X -> extends m.
Proof.
  intros Hm els a els' H. rewrite Hm in H. inversion H. now exists X.
Qed.

Lemma extends_ret {A : Type} (a : A) : extends (ret a).
Proof.
  intros els b els' H. inversion H. exists []. now rewrite app_nil_r.
Qed.

Lemma extends_append f : extends (append f).
Proof. apply emits_extends with (X := [f]). apply emits_append. Qed.

Lemma extends_lift {A : Type} (r : result A) : extends (lift r).
Proof.
  intros els a els' H. unfold lift in H. destruct r; inversion H.
  exists []. now rewrite app_nil_r.
Qed.

Lemma extends_bind {A B : Type} (m : M A) (k : A -> M B) :
  extends m -> (forall a, extends (k a)) -> extends (bind m k).
Proof.
  intros Hm Hk els b els' H.
  apply bind_inr in H as (a & els1 & H1 & H2).
  apply Hm in H1 as [o1 ->]. apply Hk in H2 as [o2 ->].
  exists (o1 ++ o2). now rewrite app_assoc.
Qed.

Lemma extends_for_each {A : Type} (xs : list A) (body : A -> M unit) :
  (forall x, extends (body x)) -> extends (for_each xs body).
Proof.
  intros Hbody. induction xs as [|x xs IH]; simpl.
  - apply extends_ret.
  - apply extends_bind; [apply Hbody | intros _; exact IH].
Qed.

Lemma extends_if {A : Type} (b : bool) (m1 m2 : M A) :
  extends m1 -> extends m2 -> extends (if b then m1 else m2).
Proof. now destruct b. Qed.

Ltac extends_step :=
  first
    [ apply extends_append
    | apply extends_ret
    | apply extends_lift
    | apply extends_if
    | apply extends_for_each; intros ?
    | apply extends_bind; [|intros ?] ].

Ltac extends_auto := repeat extends_step.

Lemma extends_time_to_regret ttr : extends (time_to_regret_section ttr).
Proof. unfold time_to_regret_section. extends_auto. Qed.

Lemma extends_primary_gtm_shape v gs : extends (primary_gtm_shape_section v gs).
Proof. unfold primary_gtm_shape_section, bulleted. extends_auto. Qed.

Lemma extends_founder_energy_profile fp : extends (founder_energy_profile_section fp).
Proof. unfold founder_energy_profile_section, bulleted. extends_auto. Qed.

Lemma extends_mismatch_flags mf : extends (mismatch_flags_section mf).
Proof. unfold mismatch_flags_section. extends_auto. Qed.

Lemma extends_classification_basis v : extends (classification_basis_section v).
Proof. unfold classification_basis_section. extends_auto. Qed.

Lemma extends_does_not_say : extends does_not_say_section.
Proof. unfold does_not_say_section. extends_auto. Qed.

Lemma extends_final_line : extends final_line_section.
Proof. unfold final_line_section. extends_auto. Qed.

Lemma extends_immutability_notice : extends immutability_notice_section.
Proof. unfold immutability_notice_section. extends_auto. Qed.

Create HintDb sections.
#[local] Hint Resolve extends_time_to_regret extends_primary_gtm_shape
  extends_founder_energy_profile extends_mismatch_flags extends_classification_basis
  extends_does_not_say extends_final_line extends_immutability_notice : sections.

Ltac extends_sections :=
  repeat first [ solve [auto with sections] | apply extends_bind; [|intros ?] ].

(** A successful composition contains the verdict box built from [risk_level],
    between the VERDICT heading and a spacer. *)
Lemma compose_verdict_box aid ts v gs fp mf ttr rl els :
  run (compose aid ts v gs fp mf ttr rl) = inr els ->
  exists t pre post,
    verdict_table rl = inr t /\
    els = pre ++ [Paragraph (PStr (lit "VERDICT")) heading_style; t; Spacer 1 (0.2 * inch)] ++ post.
Proof.
  intros H. apply run_inr in H. unfold compose in H.
  apply bind_inr in H as ([] & e1 & _ & H).
  apply bind_inr in H as ([] & e2 & _ & H).
  apply bind_inr in H as ([] & e3 & _ & H).
  apply bind_inr in H as ([] & e4 & Hbox & H).
  assert (Hrest : exists out, els = e4 ++ out).
  { match type of H with ?m e4 = _ => assert (Hext : extends m) by extends_sections end.
    exact (Hext _ _ _ H). }
  destruct Hrest as [post ->].
  unfold verdict_box_section in Hbox.
  apply bind_inr in Hbox as ([] & b1 & Hb1 & Hbox).
  apply bind_inr in Hbox as (t & b2 & Hb2 & Hbox).
  apply bind_inr in Hbox as ([] & b3 & Hb3 & Hbox).
  unfold append in Hb1, Hb3, Hbox. unfold lift in Hb2.
  destruct (verdict_table rl) as [e|t'] eqn:Et; [discriminate|].
  inversion Hb1; inversion Hb2; inversion Hb3; inversion Hbox; subst.
  exists t, e3, post. split; [reflexivity|].
  now rewrite <- !app_assoc.
Qed.

(** C1.  The severity colour lookup is case-insensitive and exhaustive.  For
    every string [risk_level] the verdict box is built without an exception; its
    border is green #10b981, amber #f59e0b, red #ef4444 or dark red #991b1b when
    the upper-cased string is LOW, MODERATE, HIGH or SEVERE, and black for every
    other string, among them the default "UNKNOWN".  The box is the one placed
    in the composed document. *)
Theorem C1_severity_color_lookup (s : str) :
  exists t,
    verdict_table (PStr s) = inr t /\
    (upper s = lit "LOW" -> box_color t = Some (HexColor 0x10b981)) /\
    (upper s = lit "MODERATE" -> box_color t = Some (HexColor 0xf59e0b)) /\
    (upper s = lit "HIGH" -> box_color t = Some (HexColor 0xef4444)) /\
    (upper s = lit "SEVERE" -> box_color t = Some (HexColor 0x991b1b)) /\
    (upper s <> lit "LOW" -> upper s <> lit "MODERATE" ->
     upper s <> lit "HIGH" -> upper s <> lit "SEVERE" ->
     box_color t = Some black) /\
    (s = lit "UNKNOWN" -> box_color t = Some black) /\
    (forall aid ts v gs fp mf ttr els,
       run (compose aid ts v gs fp mf ttr (PStr s)) = inr els -> In t els).
Proof.
  eexists. split; [apply verdict_table_str|].
  cbn [box_color box_color_of].
  repeat split.
  - intros ->. reflexivity.
  - intros ->. reflexivity.
  - intros ->. reflexivity.
  - intros ->. reflexivity.
  - intros H1 H2 H3 H4. now rewrite risk_colors_other.
  - intros ->. reflexivity.
  - intros aid ts v gs fp mf ttr els H.
    apply compose_verdict_box in H as (t & pre & post & Ht & ->).
    rewrite verdict_table_str in Ht. inversion Ht; subst t.
    apply in_or_app. right. simpl. auto.
Qed.

(** C9.  For every string [risk_level] the first row of the verdict box is
    "Misery Risk: " followed by the upper-cased string, and the table style
    colours that cell with the severity colour, which is also the border.  An
    unmapped value keeps its label and is coloured black: "UNKNOWN" gives the
    row "Misery Risk: UNKNOWN" in black. *)
Theorem C9_verdict_label (s : str) :
  exists t c,
    verdict_table (PStr s) = inr t /\
    nth_error (table_rows t) 0 = Some [PStr (lit "Misery Risk: " ++ upper s)] /\
    c = dict_get_default risk_colors (upper s) black /\
    In (TEXTCOLOR (0, 0)%Z (0, 0)%Z c) (table_style t) /\
    box_color t = Some c /\
    (s = lit "UNKNOWN" ->
     nth_error (table_rows t) 0 = Some [PStr (lit "Misery Risk: UNKNOWN")] /\ c = black).
Proof.
  eexists. eexists. split; [apply verdict_table_str|].
  cbn [table_rows table_style box_color box_color_of nth_error].
  repeat split.
  - simpl. tauto.
  - subst s. reflexivity.
  - subst s. reflexivity.
Qed.

(** *** The MISMATCH FLAGS section *)

Lemma flat_map_after_map {A B C : Type} (f : A -> B) (g : B -> list C) (l : list A) :
  flat_map g (map f l) = flat_map (fun x => g (f x)) l.
Proof.
  induction l as [|x l IH]; simpl; [reflexivity|]. now rewrite IH.
Qed.

Lemma mismatch_flags_emits (flags : list str) :
  emits (mismatch_flags_section (PList (map PStr flags)))
    ([Paragraph (PStr (lit "MISMATCH FLAGS")) heading_style]
     ++ match flags with
        | [] => [Paragraph (PStr (lit "No critical mismatches detected.")) body_style]
        | _ :: _ =>
            flat_map (fun flag =>
              [Paragraph (PStr (ballot_x :: lit " " ++ flag)) body_style;
               Spacer 1 (0.05 * inch)]) flags
        end
     ++ [Spacer 1 (0.2 * inch)]).
Proof.
  unfold mismatch_flags_section.
  apply emits_bind; [apply emits_append|].
  apply emits_bind; [|apply emits_append].
  destruct flags as [|f flags].
  - apply emits_append.
  - change (truthy (PList (map PStr (f :: flags)))) with true. cbv iota.
    eapply emits_lift; [reflexivity|].
    rewrite <- (flat_map_after_map PStr
      (fun v => [Paragraph (PStr (ballot_x :: lit " " ++ format_value v)) body_style;
                 Spacer 1 (0.05 * inch)])).
    apply emits_for_each. intros x.
    apply emits_bind with (X := [_]) (Y := [_]); apply emits_append.
Qed.

Lemma classification_basis_inr v els els' :
  classification_basis_section v els = inr (tt, els') ->
  exists explanation,
    els' = els ++ [Paragraph (PStr (lit "CLASSIFICATION BASIS")) heading_style;
                   Paragraph explanation body_style;
                   Spacer 1 (0.2 * inch)].
Proof.
  unfold classification_basis_section, bind, append, lift, py_get.
  destruct v; try discriminate.
  intros H.
  match type of H with inr (tt, ?r) = _ => assert (E : els' = r) by congruence end.
  subst els'. eexists. rewrite <- !app_assoc. reflexivity.
Qed.

(** C2.  In the composed element list, the MISMATCH FLAGS heading is followed,
    for a non-empty list of flags, by one paragraph per flag in input order,
    each reading "✗ " and the flag and each followed by a spacer of 0.05 inch;
    for the empty list it is followed by the single paragraph "No critical
    mismatches detected.".  The section closes with a spacer and is followed by
    the CLASSIFICATION BASIS heading. *)
Theorem C2_mismatch_flags_section aid ts v gs fp ttr rl (flags : list str) els :
  run (compose aid ts v gs fp (PList (map PStr flags)) ttr rl) = inr els ->
  exists pre post,
    els = pre
      ++ Paragraph (PStr (lit "MISMATCH FLAGS")) heading_style
      :: match flags with
         | [] => [Paragraph (PStr (lit "No critical mismatches detected.")) body_style]
         | _ :: _ =>
             flat_map (fun flag =>
               [Paragraph (PStr (ballot_x :: lit " " ++ flag)) body_style;
                Spacer 1 (0.05 * inch)]) flags
         end
      ++ Spacer 1 (0.2 * inch)
      :: Paragraph (PStr (lit "CLASSIFICATION BASIS")) heading_style
      :: post.
Proof.
  intros H. apply run_inr in H. unfold compose in H.
  do 6 (apply bind_inr in H as ([] & ? & _ & H)).
  apply bind_inr in H as ([] & e7 & _ & H).
  apply bind_inr in H as ([] & e8 & Hmis & H).
  apply bind_inr in H as ([] & e9 & Hcls & H).
  rewrite mismatch_flags_emits in Hmis.
  match type of Hmis with inr (tt, ?r) = _ => assert (E8 : e8 = r) by congruence end.
  subst e8; clear Hmis.
  apply classification_basis_inr in Hcls as [explanation ->].
  match type of H with ?m _ = _ => assert (Hext : extends m) by extends_sections end.
  apply Hext in H as [out ->].
  exists e7, (Paragraph explanation body_style :: Spacer 1 (0.2 * inch) :: out).
  rewrite <- !app_assoc. reflexivity.
Qed.

(** *** The footer *)

Lemma later_pages_nth (cb : PageCallback) (pages : list (list Flowable)) :
  forall (doc : Doc) (i : nat),
    nth_error (later_pages cb doc pages) i =
    option_map (mkPage (cb [] (mkDoc (page doc + 1 + Z.of_nat i)))) (nth_error pages i).
Proof.
  induction pages as [|fl pages IH]; intros doc i.
  - destruct i; reflexivity.
  - destruct i as [|i].
    + simpl. now rewrite Z.add_0_r.
    + cbn [later_pages nth_error]. rewrite IH. cbn [page].
      replace (page doc + 1 + 1 + Z.of_nat i)%Z with (page doc + 1 + Z.of_nat (S i))%Z by lia.
      reflexivity.
Qed.

Lemma draw_pages_nth (cb : PageCallback) (pages : list (list Flowable)) (i : nat) :
  nth_error (draw_pages cb cb pages) i =
  option_map (mkPage (cb [] (mkDoc (Z.of_nat (S i))))) (nth_error pages i).
Proof.
  destruct pages as [|fl pages]; [now destruct i|].
  destruct i as [|i]; [reflexivity|].
  cbn [draw_pages nth_error]. rewrite later_pages_nth. cbn [page].
  replace (1 + 1 + Z.of_nat i)%Z with (Z.of_nat (S (S i))) by lia.
  reflexivity.
Qed.

Lemma later_pages_length (cb : PageCallback) (pages : list (list Flowable)) :
  forall doc, List.length (later_pages cb doc pages) = List.length pages.
Proof.
  induction pages as [|fl pages IH]; intros doc; simpl; [reflexivity|].
  now rewrite IH.
Qed.

Lemma draw_pages_length (cb1 cb2 : PageCallback) (pages : list (list Flowable)) :
  List.length (draw_pages cb1 cb2 pages) = List.length pages.
Proof.
  destruct pages as [|fl pages]; simpl; [reflexivity|].
  now rewrite later_pages_length.
Qed.

(** C3.  When the elements compose and paginate into [pages], the document
    that is serialised has one drawn page per page, and the callback built once
    from [assessment_id] has drawn on page k (k = 1 .. page count) the rule and
    then, centred, the text "Will I Hate This? — Founder–GTM Misery Risk
    Diagnostic | Assessment ID: <assessment_id> | Page <k>", where k is the
    value of [doc.page] at the time of the call.  That text contains
    "Page k". *)
Theorem C3_footer_on_every_page amb aid ts v gs fp mf ttr rl els pages :
  run (compose aid ts v gs fp mf ttr rl) = inr els ->
  rl_paginate amb report_doc els = inr pages ->
  exists drawn,
    generate_verdict_pdf amb aid ts v gs fp mf ttr rl
      = inr (b64encode (rl_serialize amb drawn)) /\
    List.length drawn = List.length pages /\
    forall k : nat, (1 <= k <= List.length pages)%nat ->
      exists p text,
        nth_error drawn (k - 1) = Some p /\
        text = lit "Will I Hate This? " ++ em_dash :: lit " Founder" ++ en_dash
                 :: lit "GTM Misery Risk Diagnostic | Assessment ID: "
                 ++ format_value aid ++ lit " | Page " ++ str_of_int (Z.of_nat k) /\
        decorations p =
          [ saveState;
            setStrokeColor (HexColor 0x2563eb);
            setLineWidth 0.5;
            line 72 50 (fst letter - 72) 50;
            setFont "Helvetica" 8;
            setFillColor (HexColor 0x666666);
            drawCentredString (fst letter / 2) 35 text;
            restoreState ] /\
        substring (lit "Page " ++ str_of_int (Z.of_nat k)) text.
Proof.
  intros Hels Hpages.
  exists (draw_pages (create_footer_drawer aid) (create_footer_drawer aid) pages).
  split; [|split].
  - unfold generate_verdict_pdf, SimpleDocTemplate_build, rbind.
    now rewrite Hels, Hpages.
  - apply draw_pages_length.
  - intros k [Hk1 Hk2].
    destruct (nth_error pages (k - 1)) as [fl|] eqn:Efl.
    2:{ apply nth_error_None in Efl. lia. }
    eexists. eexists. split; [|split; [reflexivity|split]].
    + rewrite draw_pages_nth, Efl. reflexivity.
    + cbn [decorations]. unfold create_footer_drawer, footer_text. cbn [page app].
      replace (S (k - 1)) with k by lia. reflexivity.
    + exists (lit "Will I Hate This? " ++ em_dash :: lit " Founder" ++ en_dash
                :: lit "GTM Misery Risk Diagnostic | Assessment ID: "
                ++ format_value aid ++ lit " | "), [].
      rewrite app_nil_r.
      change (lit " | Page ") with (lit " | " ++ lit "Page ").
      repeat (progress (rewrite <- ?app_assoc; cbn [app])). reflexivity.
Qed.

(** *** Composition without optional fields *)

Ltac emits_straight :=
  intros els;
  repeat (unfold bind, append, lift, ret, py_get; cbn beta iota);
  rewrite <- ?app_assoc; reflexivity.

Lemma header_emits :
  emits header_section
    [ Paragraph (PStr (lit "FOUNDER" ++ en_dash :: lit "GTM MISERY RISK DIAGNOSTIC")) title_style;
      Paragraph (PStr (lit "Will I Hate This?")) subtitle_style ].
Proof. unfold header_section. emits_straight. Qed.

Lemma metadata_emits aid ts :
  emits (metadata_section aid ts) [metadata_table aid ts; Spacer 1 (0.15 * inch)].
Proof. unfold metadata_section. emits_straight. Qed.

Lemma disclaimer_emits :
  emits disclaimer_section
    [Paragraph (PStr disclaimer_text) body_style; Spacer 1 (0.25 * inch)].
Proof. unfold disclaimer_section. emits_straight. Qed.

Lemma verdict_box_emits rl t :
  verdict_table rl = inr t ->
  emits (verdict_box_section rl)
    [Paragraph (PStr (lit "VERDICT")) heading_style; t; Spacer 1 (0.2 * inch)].
Proof.
  intros Ht. unfold verdict_box_section. rewrite Ht. emits_straight.
Qed.

Lemma time_to_regret_emits ttr :
  emits (time_to_regret_section ttr)
    [ Paragraph (PStr (lit "Time-to-Regret: " ++ format_value ttr)) heading_style;
      Paragraph (PStr regret_text) body_style;
      Spacer 1 (0.2 * inch) ].
Proof. unfold time_to_regret_section. emits_straight. Qed.






Lemma does_not_say_emits :
  emits does_not_say_section
    [ Paragraph (PStr (lit "WHAT THIS VERDICT DOES NOT SAY")) heading_style;
      Paragraph (PStr does_not_say) body_style;
      Spacer 1 (0.3 * inch) ].
Proof. unfold does_not_say_section. emits_straight. Qed.

Lemma final_line_emits :
  emits final_line_section
    [ Paragraph (PStr (lit "Most founders ignore this signal.")) final_warning;
      Paragraph (PStr (lit "The cost is usually paid in time, not money.")) final_warning;
      Spacer 1 (0.2 * inch) ].
Proof. unfold final_line_section. emits_straight. Qed.

Lemma immutability_notice_emits :
  emits immutability_notice_section [Paragraph (PStr immutable_text) body_style].
Proof. unfold immutability_notice_section. emits_straight. Qed.


(** *** The handler *)

(** [do_POST] on a JSON object, with the event lists written out. *)
Lemma do_POST_object amb now d :
  do_POST amb now (PDict d) =
  let assessment_id := dict_get_default d (lit "assessment_id") PNone in
  let verdict := dict_get_default d (lit "verdict") (PDict []) in
  let gtm_shape := dict_get_default d (lit "gtm_shape") (PStr (lit "Not Classified")) in
  let founder_profile := dict_get_default d (lit "founder_profile") (PDict []) in
  let mismatch_flags := dict_get_default d (lit "mismatch_flags") (PList []) in
  let time_to_regret := dict_get_default d (lit "time_to_regret") (PStr (lit "Unknown")) in
  let risk_level := dict_get_default d (lit "risk_level") (PStr (lit "UNKNOWN")) in
  let failed e :=
    [ send_response 500;
      send_header "Content-Type" "application/json";
      send_header "Access-Control-Allow-Origin" "*";
      end_headers;
      wfile_write (PDict [(lit "error", PStr (lit "PDF Generation Failed: " ++ exn_str e))]);
      stdout_print (ballot_x :: lit " PDF generation error: " ++ exn_str e) ] in
  if negb (truthy assessment_id) then
    [ send_response 400;
      send_header "Content-Type" "application/json";
      send_header "Access-Control-Allow-Origin" "*";
      end_headers;
      wfile_write (PDict [(lit "error", PStr (lit "assessment_id is required"))]) ]
  else if negb (truthy verdict) || negb (truthy gtm_shape) then
    [ send_response 400;
      send_header "Content-Type" "application/json";
      send_header "Access-Control-Allow-Origin" "*";
      end_headers;
      wfile_write (PDict [(lit "error",
                           PStr (lit "Verdict data missing. Cannot generate report."))]);
      stdout_print (ballot_x :: lit " PDF generation failed for assessment "
                      ++ format_value assessment_id ++ lit ": Missing verdict data") ]
  else
    match generate_verdict_pdf amb assessment_id (PStr now) verdict gtm_shape
            founder_profile mismatch_flags time_to_regret risk_level with
    | inl e => failed e
    | inr pdf_content_base64 =>
        [ send_response 200;
          send_header "Content-Type" "application/json";
          send_header "Access-Control-Allow-Origin" "*";
          end_headers ]
        ++ match py_slice_to assessment_id 8 with
           | inl e => failed e
           | inr head =>
               [ wfile_write
                   (PDict [ (lit "success", PBool true);
                            (lit "pdfAttachmentData",
                             PDict [ (lit "filename",
                                      PStr (lit "WHT-Diagnostic-Report-"
                                              ++ format_value head ++ lit ".pdf"));
                                     (lit "content", PStr pdf_content_base64) ]) ]);
                 stdout_print (check_mark :: lit " PDF generated successfully for assessment: "
                                 ++ format_value assessment_id) ]
           end
    end.
Proof.
  unfold do_POST, do_POST_try. cbn [py_get hlift hbind].
  destruct (truthy (dict_get_default d (lit "assessment_id") PNone)); [|reflexivity].
  cbn [negb].
  destruct (truthy (dict_get_default d (lit "verdict") (PDict []))) ;
    destruct (truthy (dict_get_default d (lit "gtm_shape") (PStr (lit "Not Classified"))));
    try reflexivity.
  cbn [negb orb].
  destruct (generate_verdict_pdf _ _ _ _ _ _ _ _ _) as [e|content]; [reflexivity|].
  destruct (py_slice_to _ _) as [e|head]; reflexivity.
Qed.

(** C5.  A request object whose [assessment_id] is absent, or present but
    empty (false in Python's sense), is answered with status 400 and the body
    {"error": "assessment_id is required"} and nothing else: no
    [pdfAttachmentData] is written, and the exchange is the same whatever the
    other fields hold and whatever ReportLab would do, so no rendering takes
    part in it. *)
Theorem C5_assessment_id_required amb now d :
  truthy (dict_get_default d (lit "assessment_id") PNone) = false ->
  do_POST amb now (PDict d) =
  [ send_response 400;
    send_header "Content-Type" "application/json";
    send_header "Access-Control-Allow-Origin" "*";
    end_headers;
    wfile_write (PDict [(lit "error", PStr (lit "assessment_id is required"))]) ].
Proof.
  intros H. rewrite do_POST_object. cbv zeta. now rewrite H.
Qed.


(** C6.  Whenever a request with the string [assessment_id] is answered with
    status 200 alone, the one body written is the success object, and its
    filename is "WHT-Diagnostic-Report-" followed by the first 8 characters of
    [assessment_id] and ".pdf"; for "abcdefghijklmnop" that is
    "WHT-Diagnostic-Report-abcdefgh.pdf". *)
Theorem C6_filename_first_eight amb now d (s : str) :
  dict_get d (lit "assessment_id") = Some (PStr s) ->
  status_codes (do_POST amb now (PDict d)) = [200%Z] ->
  (exists content,
     bodies (do_POST amb now (PDict d)) =
     [ PDict [ (lit "success", PBool true);
               (lit "pdfAttachmentData",
                PDict [ (lit "filename",
                         PStr (lit "WHT-Diagnostic-Report-" ++ firstn 8 s ++ lit ".pdf"));
                        (lit "content", PStr content) ]) ] ])
  /\
  (s = lit "abcdefghijklmnop" ->
   lit "WHT-Diagnostic-Report-" ++ firstn 8 s ++ lit ".pdf"
   = lit "WHT-Diagnostic-Report-abcdefgh.pdf").
Proof.
  intros Hid Hok. split; [|intros ->; reflexivity].
  assert (Ea : dict_get_default d (lit "assessment_id") PNone = PStr s)
    by (unfold dict_get_default; now rewrite Hid).
  rewrite do_POST_object in Hok |- *. cbv zeta in Hok |- *. rewrite Ea in Hok |- *.
  destruct (truthy (PStr s)); cbn [negb] in Hok |- *; [|discriminate].
  destruct (negb _ || negb _); [discriminate|].
  destruct (generate_verdict_pdf _ _ _ _ _ _ _ _ _) as [e|content]; [discriminate|].
  exists content. reflexivity.
Qed.

(** C10.  For a non-empty string [assessment_id] shorter than 8 characters the
    slice [assessment_id[:8]] raises nothing and is the whole identifier, and a
    request that passes validation and renders to [content] is answered with
    status 200 and the filename "WHT-Diagnostic-Report-" followed by the entire
    [assessment_id] and ".pdf". *)
Theorem C10_short_assessment_id amb now d (s content : str) :
  s <> [] ->
  (List.length s < 8)%nat ->
  dict_get d (lit "assessment_id") = Some (PStr s) ->
  truthy (dict_get_default d (lit "verdict") (PDict [])) = true ->
  truthy (dict_get_default d (lit "gtm_shape") (PStr (lit "Not Classified"))) = true ->
  generate_verdict_pdf amb (PStr s) (PStr now)
    (dict_get_default d (lit "verdict") (PDict []))
    (dict_get_default d (lit "gtm_shape") (PStr (lit "Not Classified")))
    (dict_get_default d (lit "founder_profile") (PDict []))
    (dict_get_default d (lit "mismatch_flags") (PList []))
    (dict_get_default d (lit "time_to_regret") (PStr (lit "Unknown")))
    (dict_get_default d (lit "risk_level") (PStr (lit "UNKNOWN"))) = inr content ->
  py_slice_to (PStr s) 8 = inr (PStr s) /\
  do_POST amb now (PDict d) =
  [ send_response 200;
    send_header "Content-Type" "application/json";
    send_header "Access-Control-Allow-Origin" "*";
    end_headers;
    wfile_write
      (PDict [ (lit "success", PBool true);
               (lit "pdfAttachmentData",
                PDict [ (lit "filename",
                         PStr (lit "WHT-Diagnostic-Report-" ++ s ++ lit ".pdf"));
                        (lit "content", PStr content) ]) ]);
    stdout_print (check_mark :: lit " PDF generated successfully for assessment: " ++ s) ].
Proof.
  intros Hne Hlen Hid Hv Hg Hgen.
  assert (Hslice : firstn 8 s = s) by (apply firstn_all2; lia).
  split.
  - unfold py_slice_to. now rewrite Hslice.
  - rewrite do_POST_object. cbv zeta. rewrite Hv, Hg. cbn [negb orb].
    assert (Ea : dict_get_default d (lit "assessment_id") PNone = PStr s)
      by (unfold dict_get_default; now rewrite Hid).
    rewrite Ea, Hgen.
    assert (Ht : truthy (PStr s) = true) by (destruct s; [contradiction|reflexivity]).
    rewrite Ht. cbn [negb py_slice_to format_value]. rewrite Hslice. reflexivity.
Qed.

(* ------------------------------------------------------------------ *)
(** ** Further properties of the handler *)


(** X2.  On a request object, status 400 is sent exactly when [assessment_id],
    [verdict] or [gtm_shape] (after its default "Not Classified") is false in
    Python's sense.  Neither the other fields nor ReportLab have a say. *)
Theorem X2_rejected_iff_required_field_empty amb now d :
  In 400%Z (status_codes (do_POST amb now (PDict d))) <->
  truthy (dict_get_default d (lit "assessment_id") PNone) = false \/
  truthy (dict_get_default d (lit "verdict") (PDict [])) = false \/
  truthy (dict_get_default d (lit "gtm_shape") (PStr (lit "Not Classified"))) = false.
Proof.
  rewrite do_POST_object. cbv zeta.
  destruct (truthy (dict_get_default d (lit "assessment_id") PNone)); cbn [negb].
  2:{ split; [auto|]. intros _. simpl. auto. }
  destruct (truthy (dict_get_default d (lit "verdict") (PDict []))); cbn [negb orb].
  2:{ split; [auto|]. intros _. simpl. auto. }
  destruct (truthy (dict_get_default d (lit "gtm_shape") (PStr (lit "Not Classified"))));
    cbn [negb].
  2:{ split; [auto|]. intros _. simpl. auto. }
  split.
  - destruct (generate_verdict_pdf _ _ _ _ _ _ _ _ _) as [e|content].
    + cbn. intuition discriminate.
    + destruct (py_slice_to _ _) as [e|head]; cbn; intuition discriminate.
  - intros [H|[H|H]]; discriminate.
Qed.



(** X4.  An [assessment_id] that is true in Python's sense but is neither a
    string nor a list (a non-zero number, [true], a non-empty object) passes
    validation; if rendering succeeds, the handler has already sent status 200
    and its headers when the slice [assessment_id[:8]] raises, and it then sends
    status 500 with the error body: two status lines, no attachment. *)
Theorem X4_status_200_then_500 amb now d content :
  let assessment_id := dict_get_default d (lit "assessment_id") PNone in
  let verdict := dict_get_default d (lit "verdict") (PDict []) in
  let gtm_shape := dict_get_default d (lit "gtm_shape") (PStr (lit "Not Classified")) in
  truthy assessment_id = true ->
  (forall s, assessment_id <> PStr s) ->
  (forall l, assessment_id <> PList l) ->
  truthy verdict = true ->
  truthy gtm_shape = true ->
  generate_verdict_pdf amb assessment_id (PStr now) verdict gtm_shape
    (dict_get_default d (lit "founder_profile") (PDict []))
    (dict_get_default d (lit "mismatch_flags") (PList []))
    (dict_get_default d (lit "time_to_regret") (PStr (lit "Unknown")))
    (dict_get_default d (lit "risk_level") (PStr (lit "UNKNOWN"))) = inr content ->
  do_POST amb now (PDict d) =
  [ send_response 200;
    send_header "Content-Type" "application/json";
    send_header "Access-Control-Allow-Origin" "*";
    end_headers;
    send_response 500;
    send_header "Content-Type" "application/json";
    send_header "Access-Control-Allow-Origin" "*";
    end_headers;
    wfile_write (PDict [(lit "error",
                         PStr (lit "PDF Generation Failed: "
                                 ++ exn_str (NotSubscriptable assessment_id)))]);
    stdout_print (ballot_x :: lit " PDF generation error: "
                    ++ exn_str (NotSubscriptable assessment_id)) ].
Proof.
  intros assessment_id verdict gtm_shape Hid Hs Hl Hv Hg Hgen.
  rewrite do_POST_object. cbv zeta.
  fold assessment_id verdict gtm_shape.
  rewrite Hid, Hv, Hg, Hgen. cbn [negb orb].
  assert (Hslice : py_slice_to assessment_id 8 = inl (NotSubscriptable assessment_id)).
  { destruct assessment_id as [| b | n | s | l | e]; try reflexivity.
    - now destruct (Hs s).
    - now destruct (Hl l). }
  rewrite Hslice. reflexivity.
Qed.

(** X5.  A decoded request that is not an object (null, a boolean, a number,
    a string or an array) has no [get]: the handler answers with status 500
    and the error body built from that exception, and nothing else. *)
Theorem X5_non_object_request amb now data :
  (forall d, data <> PDict d) ->
  do_POST amb now data =
  [ send_response 500;
    send_header "Content-Type" "application/json";
    send_header "Access-Control-Allow-Origin" "*";
    end_headers;
    wfile_write (PDict [(lit "error",
                         PStr (lit "PDF Generation Failed: "
                                 ++ exn_str (AttributeError data "get")))]);
    stdout_print (ballot_x :: lit " PDF generation error: "
                    ++ exn_str (AttributeError data "get")) ].
Proof.
  intros Hd. destruct data as [| b | n | s | l | d]; try reflexivity.
  now destruct (Hd d).
Qed.

(** *** Fields of the wrong type *)

Lemma fails_bind_l {A B : Type} (m : M A) (k : A -> M B) :
  fails m -> fails (bind m k).
Proof.
  intros Hm els. destruct (Hm els) as [e He]. exists e. unfold bind. now rewrite He.
Qed.

Lemma fails_bind_r {A B : Type} (m : M A) (k : A -> M B) :
  (forall a, fails (k a)) -> fails (bind m k).
Proof.
  intros Hk els. unfold bind. destruct (m els) as [e|[a els1]].
  - now exists e.
  - apply Hk.
Qed.

Lemma fails_lift {A : Type} (r : result A) e :
  r = inl e -> fails (lift r).
Proof. intros -> els. now exists e. Qed.

Lemma verdict_box_fails rl :
  (forall s, rl <> PStr s) -> fails (verdict_box_section rl).
Proof.
  intros Hrl. unfold verdict_box_section.
  apply fails_bind_r; intros _. apply fails_bind_l.
  apply fails_lift with (e := AttributeError rl "upper").
  destruct rl as [| b | n | s | l | d]; try reflexivity. now destruct (Hrl s).
Qed.

Lemma py_get_non_object v key default :
  (forall d, v <> PDict d) -> py_get v key default = inl (AttributeError v "get").
Proof.
  intros Hv. destruct v as [| b | n | s | l | d]; try reflexivity. now destruct (Hv d).
Qed.

Lemma primary_gtm_shape_fails v gs :
  (forall d, v <> PDict d) -> fails (primary_gtm_shape_section v gs).
Proof.
  intros Hv. unfold primary_gtm_shape_section.
  do 2 (apply fails_bind_r; intros _). apply fails_bind_l.
  eapply fails_lift. now apply py_get_non_object.
Qed.

Lemma founder_energy_profile_fails fp :
  (forall d, fp <> PDict d) -> fails (founder_energy_profile_section fp).
Proof.
  intros Hfp. unfold founder_energy_profile_section.
  apply fails_bind_r; intros _. apply fails_bind_l.
  eapply fails_lift. now apply py_get_non_object.
Qed.

Lemma mismatch_flags_fails mf :
  mf = PBool true \/ (exists n, n <> 0%Z /\ mf = PInt n) ->
  fails (mismatch_flags_section mf).
Proof.
  intros Hmf. unfold mismatch_flags_section.
  apply fails_bind_r; intros _. apply fails_bind_l.
  destruct Hmf as [-> | (n & Hn & ->)].
  - cbn [truthy]. apply fails_bind_l. now apply fails_lift with (e := NotIterable (PBool true)).
  - cbn [truthy]. apply Z.eqb_neq in Hn. rewrite Hn. cbn [negb].
    apply fails_bind_l. now apply fails_lift with (e := NotIterable (PInt n)).
Qed.

Lemma compose_fails aid ts v gs fp mf ttr rl :
  (forall s, rl <> PStr s) \/
  (forall d, v <> PDict d) \/
  (forall d, fp <> PDict d) \/
  (mf = PBool true \/ exists n, n <> 0%Z /\ mf = PInt n) ->
  exists e, run (compose aid ts v gs fp mf ttr rl) = inl e.
Proof.
  intros Hbad.
  assert (Hf : fails (compose aid ts v gs fp mf ttr rl)).
  { unfold compose. destruct Hbad as [H | [H | [H | H]]].
    - do 3 (apply fails_bind_r; intros _). apply fails_bind_l. now apply verdict_box_fails.
    - do 5 (apply fails_bind_r; intros _). apply fails_bind_l.
      now apply primary_gtm_shape_fails.
    - do 6 (apply fails_bind_r; intros _). apply fails_bind_l.
      now apply founder_energy_profile_fails.
    - do 7 (apply fails_bind_r; intros _). apply fails_bind_l.
      now apply mismatch_flags_fails. }
  destruct (Hf []) as [e He]. exists e. unfold run. now rewrite He.
Qed.

(** X6.  A request object that passes validation but carries a field of the
    wrong type is an internal error, never a success: when [risk_level] is not a
    string (an explicit null included), or [verdict] or [founder_profile] is not
    an object, or [mismatch_flags] is a non-zero number or [true], composing
    raises before ReportLab is asked to build, and the handler answers with
    status 500 and the error body alone. *)
Theorem X6_wrong_type_is_internal_error amb now d :
  let verdict := dict_get_default d (lit "verdict") (PDict []) in
  let founder_profile := dict_get_default d (lit "founder_profile") (PDict []) in
  let mismatch_flags := dict_get_default d (lit "mismatch_flags") (PList []) in
  let risk_level := dict_get_default d (lit "risk_level") (PStr (lit "UNKNOWN")) in
  truthy (dict_get_default d (lit "assessment_id") PNone) = true ->
  truthy verdict = true ->
  truthy (dict_get_default d (lit "gtm_shape") (PStr (lit "Not Classified"))) = true ->
  (forall s, risk_level <> PStr s) \/
  (forall e, verdict <> PDict e) \/
  (forall e, founder_profile <> PDict e) \/
  (mismatch_flags = PBool true \/ exists n, n <> 0%Z /\ mismatch_flags = PInt n) ->
  exists e,
    do_POST amb now (PDict d) =
    [ send_response 500;
      send_header "Content-Type" "application/json";
      send_header "Access-Control-Allow-Origin" "*";
      end_headers;
      wfile_write (PDict [(lit "error", PStr (lit "PDF Generation Failed: " ++ exn_str e))]);
      stdout_print (ballot_x :: lit " PDF generation error: " ++ exn_str e) ].
Proof.
  intros verdict founder_profile mismatch_flags risk_level Hid Hv Hg Hbad.
  destruct (compose_fails (dict_get_default d (lit "assessment_id") PNone) (PStr now)
              (dict_get_default d (lit "gtm_shape") (PStr (lit "Not Classified")))
              (dict_get_default d (lit "time_to_regret") (PStr (lit "Unknown"))) Hbad)
    as [e He].
  exists e. rewrite do_POST_object. cbv zeta.
  fold verdict founder_profile mismatch_flags risk_level.
  rewrite Hid, Hv, Hg. cbn [negb orb].
  unfold generate_verdict_pdf. rewrite He. reflexivity.
Qed.

(** X12.  The pre-flight answer is status 200 with no body, it allows the
    methods POST and OPTIONS, and every Access-Control-Allow-Origin header that
    [do_POST] sends, for any request, carries the value the pre-flight
    announces. *)
Theorem X12_preflight_agrees_with_post amb now data :
  status_codes do_OPTIONS = [200%Z] /\
  bodies do_OPTIONS = [] /\
  In (send_header "Access-Control-Allow-Methods" "POST, OPTIONS") do_OPTIONS /\
  In (send_header "Access-Control-Allow-Origin" "*") (do_POST amb now data) /\
  (forall value,
     In (send_header "Access-Control-Allow-Origin" value) (do_POST amb now data) ->
     In (send_header "Access-Control-Allow-Origin" value) do_OPTIONS).
Proof.
  split; [reflexivity|]. split; [reflexivity|]. split; [simpl; tauto|].
  assert (Hcases :
    In (send_header "Access-Control-Allow-Origin" "*") (do_POST amb now data) /\
    forall value,
      In (send_header "Access-Control-Allow-Origin" value) (do_POST amb now data) ->
      value = "*"%string).
  { destruct data as [| b | n | s | l | d].
    6:{ rewrite do_POST_object. cbv zeta.
        destruct (negb (truthy _));
          [|destruct (negb _ || negb _);
            [|destruct (generate_verdict_pdf _ _ _ _ _ _ _ _ _) as [e|content];
              [|destruct (py_slice_to _ _) as [e|head]]]].
        all: split; [simpl; tauto|].
        all: intros value Hin; simpl in Hin.
        all: repeat match goal with H : _ \/ _ |- _ => destruct H as [H|H] end.
        all: try discriminate; try contradiction.
        all: now injection Hin. }
    all: split; [simpl; tauto|].
    all: intros value Hin; simpl in Hin.
    all: repeat match goal with H : _ \/ _ |- _ => destruct H as [H|H] end.
    all: try discriminate; try contradiction.
    all: now injection Hin. }
  destruct Hcases as [Hsent Honly]. split; [exact Hsent|].
  intros value Hin. rewrite (Honly value Hin). simpl. tauto.
Qed.

(* ------------------------------------------------------------------ *)
(** ** Further properties of the composer *)



(** *** What every successful composition contains *)

Ltac emitted H lemma :=
  rewrite lemma in H;
  match type of H with
  | inr (tt, ?r) = inr (tt, ?x) => assert (x = r) by congruence; subst x; clear H
  end.

Lemma verdict_box_inr rl els els' :
  verdict_box_section rl els = inr (tt, els') ->
  exists t,
    verdict_table rl = inr t /\
    els' = els ++ [Paragraph (PStr (lit "VERDICT")) heading_style; t; Spacer 1 (0.2 * inch)].
Proof.
  intros H. destruct (verdict_table rl) as [e|t] eqn:Et.
  - unfold verdict_box_section, bind, append, lift in H. rewrite Et in H. discriminate.
  - exists t. split; [reflexivity|].
    rewrite (@verdict_box_emits rl t Et) in H. congruence.
Qed.

Lemma primary_gtm_shape_inr v gs els els' :
  primary_gtm_shape_section v gs els = inr (tt, els') ->
  exists gtm_description block,
    els' = els
      ++ [ Paragraph (PStr (lit "PRIMARY GTM SHAPE")) heading_style;
           Paragraph (PStr (lit "<b>" ++ format_value gs ++ lit "</b>")) body_style;
           Paragraph gtm_description body_style ]
      ++ block ++ [Spacer 1 (0.2 * inch)].
Proof.
  unfold primary_gtm_shape_section. intros H.
  apply bind_inr in H as ([] & e1 & H1 & H).
  apply bind_inr in H as ([] & e2 & H2 & H).
  apply bind_inr in H as (desc & e3 & H3 & H).
  apply bind_inr in H as ([] & e4 & H4 & H).
  apply bind_inr in H as (pf & e5 & H5 & H).
  apply bind_inr in H as ([] & e6 & H6 & H).
  assert (Hext : extends (if truthy pf
                          then bind (append (Spacer 1 (0.1 * inch))) (fun _ =>
                               bind (append (Paragraph (PStr (lit "<b>Active Pressure Flags:</b>"))
                                               body_style)) (fun _ =>
                               bind (lift (py_iter pf)) (fun flags => bulleted flags)))
                          else ret tt)).
  { unfold bulleted. extends_auto. }
  apply Hext in H6 as [block ->].
  unfold append in H1, H2, H4, H. unfold lift in H3, H5.
  destruct (py_get v (lit "gtm_description") (PStr gtm_description_default)); [discriminate|].
  destruct (py_get v (lit "pressure_flags") (PList [])); [discriminate|].
  exists desc, block.
  assert (e1 = els ++ [Paragraph (PStr (lit "PRIMARY GTM SHAPE")) heading_style]) by congruence.
  assert (e2 = e1 ++ [Paragraph (PStr (lit "<b>" ++ format_value gs ++ lit "</b>")) body_style])
    by congruence.
  assert (e3 = e2) by congruence.
  assert (e4 = e3 ++ [Paragraph desc body_style]) by congruence.
  assert (e5 = e4) by congruence.
  assert (els' = (e5 ++ block) ++ [Spacer 1 (0.2 * inch)]) by congruence.
  subst. repeat (progress (rewrite <- ?app_assoc; cbn [app])). reflexivity.
Qed.

Lemma founder_energy_profile_inr fp els els' :
  founder_energy_profile_section fp els = inr (tt, els') ->
  exists block,
    els' = els ++ [Paragraph (PStr (lit "FOUNDER ENERGY PROFILE")) heading_style]
               ++ block ++ [Spacer 1 (0.2 * inch)].
Proof.
  unfold founder_energy_profile_section. intros H.
  apply bind_inr in H as ([] & e1 & H1 & H).
  apply bind_inr in H as (drivers & e2 & H2 & H).
  apply bind_inr in H as (drains & e3 & H3 & H).
  apply bind_inr in H as ([] & e4 & H4 & H).
  apply bind_inr in H as ([] & e5 & H5 & H).
  match type of H4 with ?m _ = _ =>
    assert (Hx4 : extends m) by (unfold bulleted; extends_auto) end.
  match type of H5 with ?m _ = _ =>
    assert (Hx5 : extends m) by (unfold bulleted; extends_auto) end.
  apply Hx4 in H4 as [b1 ->]. apply Hx5 in H5 as [b2 ->].
  unfold append in H1, H. unfold lift in H2, H3.
  destruct (py_get fp (lit "core_drivers") (PList [])); [discriminate|].
  destruct (py_get fp (lit "core_drains") (PList [])); [discriminate|].
  exists (b1 ++ b2).
  assert (e1 = els ++ [Paragraph (PStr (lit "FOUNDER ENERGY PROFILE")) heading_style])
    by congruence.
  assert (e2 = e1) by congruence.
  assert (e3 = e2) by congruence.
  assert (els' = ((e3 ++ b1) ++ b2) ++ [Spacer 1 (0.2 * inch)]) by congruence.
  subst. repeat (progress (rewrite <- ?app_assoc; cbn [app])). reflexivity.
Qed.

Lemma mismatch_flags_inr mf els els' :
  mismatch_flags_section mf els = inr (tt, els') ->
  exists block,
    els' = els ++ [Paragraph (PStr (lit "MISMATCH FLAGS")) heading_style]
               ++ block ++ [Spacer 1 (0.2 * inch)].
Proof.
  unfold mismatch_flags_section. intros H.
  apply bind_inr in H as ([] & e1 & H1 & H).
  apply bind_inr in H as ([] & e2 & H2 & H).
  match type of H2 with ?m _ = _ => assert (Hx : extends m) by extends_auto end.
  apply Hx in H2 as [block ->].
  unfold append in H1, H.
  exists block.
  assert (e1 = els ++ [Paragraph (PStr (lit "MISMATCH FLAGS")) heading_style]) by congruence.
  assert (els' = (e1 ++ block) ++ [Spacer 1 (0.2 * inch)]) by congruence.
  subst. repeat (progress (rewrite <- ?app_assoc; cbn [app])). reflexivity.
Qed.

(** X8.  Whatever the input, a composition that does not raise has the fixed
    skeleton: title, subtitle, metadata table, disclaimer, the VERDICT heading
    with the verdict box, the Time-to-Regret heading showing the given value,
    and then the headings PRIMARY GTM SHAPE, FOUNDER ENERGY PROFILE, MISMATCH
    FLAGS, CLASSIFICATION BASIS and WHAT THIS VERDICT DOES NOT SAY in this
    order, each section closed by its spacer, the two closing sentences and the
    immutability notice last.  Only the three blocks between them vary. *)
Theorem X8_fixed_skeleton aid ts v gs fp mf ttr rl els :
  run (compose aid ts v gs fp mf ttr rl) = inr els ->
  exists t gtm_description pressure profile mismatches explanation,
    verdict_table rl = inr t /\
    els =
      [ Paragraph (PStr (lit "FOUNDER" ++ en_dash :: lit "GTM MISERY RISK DIAGNOSTIC")) title_style;
        Paragraph (PStr (lit "Will I Hate This?")) subtitle_style;
        metadata_table aid ts;
        Spacer 1 (0.15 * inch);
        Paragraph (PStr disclaimer_text) body_style;
        Spacer 1 (0.25 * inch);
        Paragraph (PStr (lit "VERDICT")) heading_style;
        t;
        Spacer 1 (0.2 * inch);
        Paragraph (PStr (lit "Time-to-Regret: " ++ format_value ttr)) heading_style;
        Paragraph (PStr regret_text) body_style;
        Spacer 1 (0.2 * inch);
        Paragraph (PStr (lit "PRIMARY GTM SHAPE")) heading_style;
        Paragraph (PStr (lit "<b>" ++ format_value gs ++ lit "</b>")) body_style;
        Paragraph gtm_description body_style ]
      ++ pressure
      ++ [ Spacer 1 (0.2 * inch);
           Paragraph (PStr (lit "FOUNDER ENERGY PROFILE")) heading_style ]
      ++ profile
      ++ [ Spacer 1 (0.2 * inch);
           Paragraph (PStr (lit "MISMATCH FLAGS")) heading_style ]
      ++ mismatches
      ++ [ Spacer 1 (0.2 * inch);
           Paragraph (PStr (lit "CLASSIFICATION BASIS")) heading_style;
           Paragraph explanation body_style;
           Spacer 1 (0.2 * inch);
           Paragraph (PStr (lit "WHAT THIS VERDICT DOES NOT SAY")) heading_style;
           Paragraph (PStr does_not_say) body_style;
           Spacer 1 (0.3 * inch);
           Paragraph (PStr (lit "Most founders ignore this signal.")) final_warning;
           Paragraph (PStr (lit "The cost is usually paid in time, not money.")) final_warning;
           Spacer 1 (0.2 * inch);
           Paragraph (PStr immutable_text) body_style ].
Proof.
  intros H. apply run_inr in H. unfold compose in H.
  apply bind_inr in H as ([] & e1 & H1 & H).
  apply bind_inr in H as ([] & e2 & H2 & H).
  apply bind_inr in H as ([] & e3 & H3 & H).
  apply bind_inr in H as ([] & e4 & H4 & H).
  apply bind_inr in H as ([] & e5 & H5 & H).
  apply bind_inr in H as ([] & e6 & H6 & H).
  apply bind_inr in H as ([] & e7 & H7 & H).
  apply bind_inr in H as ([] & e8 & H8 & H).
  apply bind_inr in H as ([] & e9 & H9 & H).
  apply bind_inr in H as ([] & e10 & H10 & H).
  apply bind_inr in H as ([] & e11 & H11 & H).
  emitted H immutability_notice_emits.
  emitted H11 final_line_emits.
  emitted H10 does_not_say_emits.
  apply classification_basis_inr in H9 as [explanation ->].
  apply mismatch_flags_inr in H8 as [mismatches ->].
  apply founder_energy_profile_inr in H7 as [profile ->].
  apply primary_gtm_shape_inr in H6 as (gtm_description & pressure & ->).
  emitted H5 time_to_regret_emits.
  apply verdict_box_inr in H4 as (t & Ht & ->).
  emitted H3 disclaimer_emits.
  emitted H2 metadata_emits.
  emitted H1 header_emits.
  exists t, gtm_description, pressure, profile, mismatches, explanation.
  split; [exact Ht|].
  repeat (progress (rewrite <- ?app_assoc; cbn [app])). reflexivity.
Qed.

(** *** Flags given as one string *)

Lemma mismatch_flags_string_emits (s : str) :
  s <> [] ->
  emits (mismatch_flags_section (PStr s))
    ([Paragraph (PStr (lit "MISMATCH FLAGS")) heading_style]
     ++ flat_map (fun c =>
          [Paragraph (PStr (ballot_x :: lit " " ++ [c])) body_style;
           Spacer 1 (0.05 * inch)]) s
     ++ [Spacer 1 (0.2 * inch)]).
Proof.
  intros Hs. unfold mismatch_flags_section.
  apply emits_bind; [apply emits_append|].
  apply emits_bind; [|apply emits_append].
  assert (Ht : truthy (PStr s) = true) by (destruct s; [contradiction|reflexivity]).
  rewrite Ht.
  eapply emits_lift; [reflexivity|].
  rewrite <- (flat_map_after_map (fun c => PStr [c])
    (fun v => [Paragraph (PStr (ballot_x :: lit " " ++ format_value v)) body_style;
               Spacer 1 (0.05 * inch)])).
  apply emits_for_each. intros x.
  apply emits_bind with (X := [_]) (Y := [_]); apply emits_append.
Qed.

(** X9.  When [mismatch_flags] arrives as one non-empty string instead of a
    list, the loop runs over its characters: the section shows one "✗ c" line
    and spacer per character of the string, in order, not one line for the
    string. *)
Theorem X9_string_flags_split_into_characters aid ts v gs fp ttr rl (s : str) els :
  s <> [] ->
  run (compose aid ts v gs fp (PStr s) ttr rl) = inr els ->
  exists pre post,
    els = pre
      ++ Paragraph (PStr (lit "MISMATCH FLAGS")) heading_style
      :: flat_map (fun c =>
           [Paragraph (PStr (ballot_x :: lit " " ++ [c])) body_style;
            Spacer 1 (0.05 * inch)]) s
      ++ Spacer 1 (0.2 * inch)
      :: Paragraph (PStr (lit "CLASSIFICATION BASIS")) heading_style
      :: post.
Proof.
  intros Hs H. apply run_inr in H. unfold compose in H.
  do 6 (apply bind_inr in H as ([] & ? & _ & H)).
  apply bind_inr in H as ([] & e7 & _ & H).
  apply bind_inr in H as ([] & e8 & Hmis & H).
  apply bind_inr in H as ([] & e9 & Hcls & H).
  emitted Hmis (@mismatch_flags_string_emits s Hs).
  apply classification_basis_inr in Hcls as [explanation ->].
  match type of H with ?m _ = _ => assert (Hext : extends m) by extends_sections end.
  apply Hext in H as [out ->].
  exists e7, (Paragraph explanation body_style :: Spacer 1 (0.2 * inch) :: out).
  repeat (progress (rewrite <- ?app_assoc; cbn [app])). reflexivity.
Qed.

(* ------------------------------------------------------------------ *)
(** ** Further properties of the renderer *)

Lemma triples_ind (P : list byte -> Prop) :
  P [] ->
  (forall a, P [a]) ->
  (forall a b, P [a; b]) ->
  (forall a b c rest, P rest -> P (a :: b :: c :: rest)) ->
  forall bs, P bs.
Proof.
  intros H0 H1 H2 H3.
  fix IH 1. intros [|a [|b [|c rest]]].
  - exact H0.
  - apply H1.
  - apply H2.
  - apply H3. apply IH.
Qed.

Lemma b64encode_length (bs : list byte) :
  List.length (b64encode bs) = (4 * ((List.length bs + 2) / 3))%nat.
Proof.
  induction bs as [| a | a b | a b c rest IH] using triples_ind; try reflexivity.
  cbn [b64encode List.length]. rewrite IH.
  replace (S (S (S (List.length rest))) + 2)%nat
    with ((List.length rest + 2) + 1 * 3)%nat by lia.
  rewrite Nat.div_add by lia. lia.
Qed.

Lemma b64_char_in_alphabet (i : N) : In (b64_char i) b64_alphabet.
Proof.
  unfold b64_char. apply nth_In.
  change (List.length b64_alphabet) with 64%nat.
  change 63%N with (N.ones 6). rewrite N.land_ones.
  assert (i mod 2 ^ 6 < 2 ^ 6)%N by (apply N.mod_lt; discriminate).
  change (2 ^ 6)%N with 64%N in *. lia.
Qed.

Lemma b64encode_alphabet (bs : list byte) :
  Forall (fun c => In c b64_alphabet \/ c = b64_pad) (b64encode bs).
Proof.
  induction bs as [| a | a b | a b c rest IH] using triples_ind.
  - constructor.
  - cbn [b64encode].
    repeat (apply Forall_cons;
            [first [left; apply b64_char_in_alphabet | right; reflexivity]|]).
    apply Forall_nil.
  - cbn [b64encode].
    repeat (apply Forall_cons;
            [first [left; apply b64_char_in_alphabet | right; reflexivity]|]).
    apply Forall_nil.
  - cbn [b64encode].
    repeat (apply Forall_cons; [left; apply b64_char_in_alphabet|]). exact IH.
Qed.

(** X10.  What [generate_verdict_pdf] returns is base64 text of the bytes
    ReportLab wrote: four characters for every three bytes, rounded up, each
    character one of the 64 letters of the alphabet or the padding sign, so
    all of them ASCII (decoding them as UTF-8 cannot fail). *)
Theorem X10_content_is_base64 amb aid ts v gs fp mf ttr rl content :
  generate_verdict_pdf amb aid ts v gs fp mf ttr rl = inr content ->
  exists pdf_bytes : list byte,
    content = b64encode pdf_bytes /\
    List.length content = (4 * ((List.length pdf_bytes + 2) / 3))%nat /\
    Forall (fun c => (In c b64_alphabet \/ c = b64_pad) /\ (c < 128)%N) content.
Proof.
  unfold generate_verdict_pdf, rbind. intros H.
  destruct (run _) as [e|els]; [discriminate|].
  destruct (SimpleDocTemplate_build _ _ _ _ _) as [e|pdf_bytes]; [discriminate|].
  exists pdf_bytes.
  assert (E : content = b64encode pdf_bytes) by congruence.
  subst content. split; [reflexivity|]. split; [apply b64encode_length|].
  eapply Forall_impl; [|apply b64encode_alphabet].
  intros c Hc. split; [exact Hc|].
  assert (Hascii : Forall (fun c => (c < 128)%N) (b64_pad :: b64_alphabet))
    by (vm_compute; repeat constructor).
  rewrite Forall_forall in Hascii. apply Hascii.
  destruct Hc as [Hc | ->]; [right; exact Hc | left; reflexivity].
Qed.

(** *** Page numbers in the footer *)

Lemma lit_inj (a b : string) : lit a = lit b -> a = b.
Proof.
  revert b. induction a as [|x a IH]; intros [|y b]; simpl; try discriminate; auto.
  intros H. injection H as Hxy Hab.
  f_equal; [|now apply IH].
  rewrite <- (ascii_N_embedding x), <- (ascii_N_embedding y). now rewrite Hxy.
Qed.

Lemma to_int_not_nil (n : Z) :
  Z.to_int n <> Decimal.Pos Decimal.Nil /\ Z.to_int n <> Decimal.Neg Decimal.Nil.
Proof.
  destruct n as [|p|p]; simpl; split; try discriminate;
    intros H; injection H as H; now apply DecimalPos.Unsigned.to_uint_nonnil in H.
Qed.

Lemma str_of_int_inj (p q : Z) : str_of_int p = str_of_int q -> p = q.
Proof.
  unfold str_of_int. intros H. apply lit_inj in H.
  apply DecimalZ.to_int_inj.
  destruct (to_int_not_nil p) as [Hp1 Hp2]. destruct (to_int_not_nil q) as [Hq1 Hq2].
  pose proof (@NilZero.isi _ Hp1 Hp2) as Ep. pose proof (@NilZero.isi _ Hq1 Hq2) as Eq.
  rewrite H in Ep. congruence.
Qed.

Lemma footer_text_page aid (doc1 doc2 : Doc) :
  footer_text aid doc1 = footer_text aid doc2 -> page doc1 = page doc2.
Proof.
  unfold footer_text. intros H.
  repeat first [apply app_inv_head in H | injection H as H].
  now apply str_of_int_inj.
Qed.

(** X11.  No two pages of one document carry the same footer: what the
    drawer built from [assessment_id] draws on the pages of a build is pairwise
    distinct, because the page number can be read back from the footer text. *)
Theorem X11_footers_pairwise_distinct aid (pages : list (list Flowable)) :
  NoDup (map decorations
           (draw_pages (create_footer_drawer aid) (create_footer_drawer aid) pages)).
Proof.
  apply NoDup_nth_error. intros i j Hi Heq.
  rewrite length_map, draw_pages_length in Hi.
  rewrite !nth_error_map, !draw_pages_nth in Heq.
  destruct (nth_error pages i) as [fi|] eqn:Ei.
  2:{ apply nth_error_None in Ei. lia. }
  destruct (nth_error pages j) as [fj|]; [|discriminate].
  cbn [option_map decorations] in Heq.
  unfold create_footer_drawer in Heq. cbn [app] in Heq.
  assert (Htext : footer_text aid (mkDoc (Z.of_nat (S i)))
                  = footer_text aid (mkDoc (Z.of_nat (S j)))) by congruence.
  apply footer_text_page in Htext. cbn [page] in Htext. lia.
Qed.



End Program.

(* ------------------------------------------------------------------ *)
(** ** Concrete runs

    The request of the specification's scenario and some of its variants, run
    with the stand-in runtime and library. *)

Lemma C1_severity_color_lookup_witness :
  exists t,
    verdict_table sample_upper (PStr (lit "h" ++ 0x131%N :: lit "gh")) = inr t /\
    box_color t = Some (HexColor 0xef4444).
Proof.
  destruct (C1_severity_color_lookup sample_upper sample_str (lit "h" ++ 0x131%N :: lit "gh"))
    as (t & Ht & _ & _ & Hhigh & _).
  exists t. split; [exact Ht|]. apply Hhigh. reflexivity.
Defined.

Lemma C9_verdict_label_witness :
  exists t,
    verdict_table sample_upper (PStr (lit "UNKNOWN")) = inr t /\
    nth_error (table_rows t) 0 = Some [PStr (lit "Misery Risk: UNKNOWN")] /\
    In (TEXTCOLOR (0, 0)%Z (0, 0)%Z black) (table_style t).
Proof.
  destruct (C9_verdict_label sample_upper (lit "UNKNOWN"))
    as (t & c & Ht & _ & _ & Hin & _ & Hunknown).
  destruct (Hunknown eq_refl) as [Hrow Hc].
  exists t. split; [exact Ht|]. split; [exact Hrow|].
  rewrite <- Hc. exact Hin.
Defined.

Lemma C2_mismatch_flags_section_witness :
  exists els pre post,
    run (compose sample_upper sample_str
           (PStr (lit "X1")) (PStr (lit "2026-11-03 12:00:00 UTC"))
           (PDict [(lit "explanation", PStr (lit "E"))]) (PStr (lit "Shape-A"))
           (PDict []) (PList (map PStr [lit "F1"; lit "F2"]))
           (PStr (lit "Unknown")) (PStr (lit "high"))) = inr els /\
    els = pre
      ++ [ Paragraph (PStr (lit "MISMATCH FLAGS")) heading_style;
           Paragraph (PStr (ballot_x :: lit " F1")) body_style;
           Spacer 1 (0.05 * inch);
           Paragraph (PStr (ballot_x :: lit " F2")) body_style;
           Spacer 1 (0.05 * inch);
           Spacer 1 (0.2 * inch);
           Paragraph (PStr (lit "CLASSIFICATION BASIS")) heading_style ]
      ++ post.
Proof.
  assert (Hrun : { els | run (compose sample_upper sample_str
           (PStr (lit "X1")) (PStr (lit "2026-11-03 12:00:00 UTC"))
           (PDict [(lit "explanation", PStr (lit "E"))]) (PStr (lit "Shape-A"))
           (PDict []) (PList (map PStr [lit "F1"; lit "F2"]))
           (PStr (lit "Unknown")) (PStr (lit "high"))) = inr els })
    by (eexists; vm_compute; reflexivity).
  destruct Hrun as [els Hrun].
  destruct (C2_mismatch_flags_section _ _ _ _ _ _ _ _ _ _ Hrun) as (pre & post & H).
  exists els, pre, post. split; [exact Hrun|exact H].
Defined.

Lemma C3_footer_on_every_page_witness :
  exists drawn p,
    generate_verdict_pdf sample_upper sample_str sample_paginate sample_serialize tt
      (PStr (lit "X1")) (PStr (lit "2026-11-03 12:00:00 UTC"))
      (PDict [(lit "explanation", PStr (lit "E"))]) (PStr (lit "Shape-A"))
      (PDict []) (PList [PStr (lit "F1"); PStr (lit "F2")])
      (PStr (lit "Unknown")) (PStr (lit "high"))
      = inr (b64encode (sample_serialize tt drawn)) /\
    List.length drawn = 7%nat /\
    nth_error drawn 6 = Some p /\
    In (drawCentredString (fst letter / 2) 35
          (lit "Will I Hate This? " ++ em_dash :: lit " Founder" ++ en_dash
             :: lit "GTM Misery Risk Diagnostic | Assessment ID: X1 | Page 7"))
       (decorations p).
Proof.
  assert (Hrun : { els | run (compose sample_upper sample_str
      (PStr (lit "X1")) (PStr (lit "2026-11-03 12:00:00 UTC"))
      (PDict [(lit "explanation", PStr (lit "E"))]) (PStr (lit "Shape-A"))
      (PDict []) (PList [PStr (lit "F1"); PStr (lit "F2")])
      (PStr (lit "Unknown")) (PStr (lit "high"))) = inr els
      /\ sample_paginate tt report_doc els = inr (chunk (List.length els) els)
      /\ List.length (chunk (List.length els) els) = 7%nat })
    by (eexists; vm_compute; repeat split; reflexivity).
  destruct Hrun as (els & Hrun & Hpages & Hcount).
  destruct (C3_footer_on_every_page sample_upper sample_str sample_paginate sample_serialize
              tt _ _ _ _ _ _ _ _ Hrun Hpages) as (drawn & Hgen & Hlen & Hfoot).
  destruct (Hfoot 7%nat) as (p & text & Hp & Htext & Hdec & _).
  { rewrite Hcount. lia. }
  exists drawn, p. split; [exact Hgen|]. split; [now rewrite Hlen|]. split; [exact Hp|].
  rewrite Hdec, Htext. simpl. tauto.
Defined.



Lemma C5_assessment_id_required_witness :
  do_POST sample_upper sample_str sample_exn_str sample_paginate sample_serialize tt
    (lit "2026-11-03 12:00:00 UTC")
    (PDict [ (lit "verdict", PDict [(lit "explanation", PStr (lit "E"))]);
             (lit "gtm_shape", PStr (lit "Shape-A")) ]) =
  [ send_response 400;
    send_header "Content-Type" "application/json";
    send_header "Access-Control-Allow-Origin" "*";
    end_headers;
    wfile_write (PDict [(lit "error", PStr (lit "assessment_id is required"))]) ].
Proof.
  apply C5_assessment_id_required. reflexivity.
Defined.

Lemma C6_filename_first_eight_witness :
  exists content,
    bodies
      (do_POST sample_upper sample_str sample_exn_str sample_paginate sample_serialize tt
         (lit "2026-11-03 12:00:00 UTC")
         (PDict [ (lit "assessment_id", PStr (lit "abcdefghijklmnop"));
                  (lit "verdict", PDict [(lit "explanation", PStr (lit "E"))]);
                  (lit "gtm_shape", PStr (lit "Shape-A")) ])) =
    [ PDict [ (lit "success", PBool true);
              (lit "pdfAttachmentData",
               PDict [ (lit "filename", PStr (lit "WHT-Diagnostic-Report-abcdefgh.pdf"));
                       (lit "content", PStr content) ]) ] ].
Proof.
  refine (proj1 (@C6_filename_first_eight sample_upper sample_str sample_exn_str _
                   sample_paginate sample_serialize tt _ _ (lit "abcdefghijklmnop") _ _)).
  - reflexivity.
  - vm_compute. reflexivity.
Defined.


Lemma C10_short_assessment_id_witness :
  exists content,
    do_POST sample_upper sample_str sample_exn_str sample_paginate sample_serialize tt
      (lit "2026-11-03 12:00:00 UTC")
      (PDict [ (lit "assessment_id", PStr (lit "X1"));
               (lit "verdict", PDict [(lit "explanation", PStr (lit "E"))]);
               (lit "gtm_shape", PStr (lit "Shape-A"));
               (lit "risk_level", PStr (lit "high"));
               (lit "mismatch_flags", PList [PStr (lit "F1"); PStr (lit "F2")]) ]) =
    [ send_response 200;
      send_header "Content-Type" "application/json";
      send_header "Access-Control-Allow-Origin" "*";
      end_headers;
      wfile_write
        (PDict [ (lit "success", PBool true);
                 (lit "pdfAttachmentData",
                  PDict [ (lit "filename", PStr (lit "WHT-Diagnostic-Report-X1.pdf"));
                          (lit "content", PStr content) ]) ]);
      stdout_print (check_mark :: lit " PDF generated successfully for assessment: X1") ].
Proof.
  eexists.
  refine (proj2 (@C10_short_assessment_id sample_upper sample_str sample_exn_str _
                   sample_paginate sample_serialize tt _ _ (lit "X1") _ _ _ _ _ _ _)).
  - discriminate.
  - simpl. lia.
  - reflexivity.
  - reflexivity.
  - reflexivity.
  - vm_compute. reflexivity.
Defined.

(** *** Further concrete runs *)


Lemma X4_status_200_then_500_witness :
  status_codes
    (do_POST sample_upper sample_str sample_exn_str sample_paginate sample_serialize tt
       (lit "2026-11-03 12:00:00 UTC")
       (PDict [ (lit "assessment_id", PInt 12345);
                (lit "verdict", PDict [(lit "explanation", PStr (lit "E"))]);
                (lit "gtm_shape", PStr (lit "Shape-A")) ])) = [200%Z; 500%Z].
Proof.
  erewrite (@X4_status_200_then_500 sample_upper sample_str sample_exn_str _
              sample_paginate sample_serialize tt).
  - reflexivity.
  - reflexivity.
  - intros s. discriminate.
  - intros l. discriminate.
  - reflexivity.
  - reflexivity.
  - vm_compute. reflexivity.
Defined.

Lemma X5_non_object_request_witness :
  status_codes
    (do_POST sample_upper sample_str sample_exn_str sample_paginate sample_serialize tt
       (lit "2026-11-03 12:00:00 UTC") (PList [PStr (lit "assessment_id")])) = [500%Z].
Proof.
  rewrite X5_non_object_request; [reflexivity|].
  intros d. discriminate.
Defined.

Lemma X6_wrong_type_is_internal_error_witness :
  status_codes
    (do_POST sample_upper sample_str sample_exn_str sample_paginate sample_serialize tt
       (lit "2026-11-03 12:00:00 UTC")
       (PDict [ (lit "assessment_id", PStr (lit "X1"));
                (lit "verdict", PDict [(lit "explanation", PStr (lit "E"))]);
                (lit "gtm_shape", PStr (lit "Shape-A"));
                (lit "risk_level", PNone) ])) = [500%Z].
Proof.
  destruct (@X6_wrong_type_is_internal_error sample_upper sample_str sample_exn_str _
              sample_paginate sample_serialize tt (lit "2026-11-03 12:00:00 UTC")
              [ (lit "assessment_id", PStr (lit "X1"));
                (lit "verdict", PDict [(lit "explanation", PStr (lit "E"))]);
                (lit "gtm_shape", PStr (lit "Shape-A"));
                (lit "risk_level", PNone) ]) as [e He].
  - reflexivity.
  - reflexivity.
  - reflexivity.
  - left. intros s. discriminate.
  - rewrite He. reflexivity.
Defined.


Lemma X8_fixed_skeleton_witness :
  exists els t,
    run (compose sample_upper sample_str
           (PStr (lit "X1")) (PStr (lit "2026-11-03 12:00:00 UTC"))
           (PDict [(lit "pressure_flags", PStr (lit "ab"))]) (PInt 7)
           (PDict [(lit "core_drivers", PDict [(lit "k", PNone)])])
           (PList [PInt 1]) PNone (PStr (lit "low"))) = inr els /\
    verdict_table sample_upper (PStr (lit "low")) = inr t /\
    nth_error els 7 = Some t /\
    nth_error els 12 = Some (Paragraph (PStr (lit "PRIMARY GTM SHAPE")) heading_style).
Proof.
  assert (Hrun : { els | run (compose sample_upper sample_str
           (PStr (lit "X1")) (PStr (lit "2026-11-03 12:00:00 UTC"))
           (PDict [(lit "pressure_flags", PStr (lit "ab"))]) (PInt 7)
           (PDict [(lit "core_drivers", PDict [(lit "k", PNone)])])
           (PList [PInt 1]) PNone (PStr (lit "low"))) = inr els })
    by (eexists; vm_compute; reflexivity).
  destruct Hrun as (els & Hrun).
  destruct (X8_fixed_skeleton _ _ _ _ _ _ _ _ _ _ Hrun)
    as (t & desc & pressure & profile & mismatches & expl & Ht & Hels).
  exists els, t. split; [exact Hrun|]. split; [exact Ht|].
  rewrite Hels. split; reflexivity.
Defined.

Lemma X9_string_flags_split_into_characters_witness :
  exists els pre post,
    run (compose sample_upper sample_str
           (PStr (lit "X1")) (PStr (lit "2026-11-03 12:00:00 UTC"))
           (PDict [(lit "explanation", PStr (lit "E"))]) (PStr (lit "Shape-A"))
           (PDict []) (PStr (lit "F1")) (PStr (lit "Unknown")) (PStr (lit "high"))) = inr els /\
    els = pre
      ++ [ Paragraph (PStr (lit "MISMATCH FLAGS")) heading_style;
           Paragraph (PStr (ballot_x :: lit " F")) body_style;
           Spacer 1 (0.05 * inch);
           Paragraph (PStr (ballot_x :: lit " 1")) body_style;
           Spacer 1 (0.05 * inch);
           Spacer 1 (0.2 * inch);
           Paragraph (PStr (lit "CLASSIFICATION BASIS")) heading_style ]
      ++ post.
Proof.
  assert (Hrun : { els | run (compose sample_upper sample_str
           (PStr (lit "X1")) (PStr (lit "2026-11-03 12:00:00 UTC"))
           (PDict [(lit "explanation", PStr (lit "E"))]) (PStr (lit "Shape-A"))
           (PDict []) (PStr (lit "F1")) (PStr (lit "Unknown")) (PStr (lit "high"))) = inr els })
    by (eexists; vm_compute; reflexivity).
  destruct Hrun as [els Hrun].
  assert (Hne : lit "F1" <> []) by discriminate.
  destruct (X9_string_flags_split_into_characters _ _ _ _ _ _ _ _ _ Hne Hrun)
    as (pre & post & H).
  exists els, pre, post. split; [exact Hrun|exact H].
Defined.

Lemma X10_content_is_base64_witness :
  exists content,
    generate_verdict_pdf sample_upper sample_str sample_paginate sample_serialize tt
      (PStr (lit "X1")) (PStr (lit "2026-11-03 12:00:00 UTC"))
      (PDict [(lit "explanation", PStr (lit "E"))]) (PStr (lit "Shape-A"))
      (PDict []) (PList []) (PStr (lit "Unknown")) (PStr (lit "UNKNOWN")) = inr content /\
    content = lit "JVBERgoKCgoKCgo=" /\
    Forall (fun c => (In c b64_alphabet \/ c = b64_pad) /\ (c < 128)%N) content.
Proof.
  assert (Hgen : { content |
    generate_verdict_pdf sample_upper sample_str sample_paginate sample_serialize tt
      (PStr (lit "X1")) (PStr (lit "2026-11-03 12:00:00 UTC"))
      (PDict [(lit "explanation", PStr (lit "E"))]) (PStr (lit "Shape-A"))
      (PDict []) (PList []) (PStr (lit "Unknown")) (PStr (lit "UNKNOWN")) = inr content /\
    content = lit "JVBERgoKCgoKCgo=" })
    by (eexists; vm_compute; split; reflexivity).
  destruct Hgen as (content & Hgen & Hval).
  destruct (X10_content_is_base64 _ _ _ _ _ _ _ _ _ _ _ _ _ Hgen)
    as (pdf_bytes & _ & _ & Hall).
  exists content. split; [exact Hgen|]. split; [exact Hval|exact Hall].
Defined.
